(** * SmartAgencyHub: the client dashboard and the projects page

    A shallow embedding of the logic of
    [client/src/pages/client-dashboard.tsx] and
    [client/src/pages/projects.tsx]: status colouring, KPI cards, list
    panels, credential cards, and the project form with its load / save
    mapping and its dialog state. *)

From Stdlib Require Import String Ascii List ZArith Bool Lia DecimalString.
Import ListNotations.
Open Scope string_scope.

(* ================================================================== *)
(** ** JavaScript values used by the two pages *)

Module JS.

(** Truthiness of a string: only the empty string is falsy. *)
Definition truthy (s : string) : bool := negb (s =? "").

(** Truthiness of [string | null | undefined]. *)
Definition truthyOpt (o : option string) : bool :=
  match o with
  | Some s => truthy s
  | None => false
  end.

(** [x || d] on [string | null | undefined] with a string default. *)
Definition orElse (o : option string) (d : string) : string :=
  match o with
  | Some s => if truthy s then s else d
  | None => d
  end.

(** [x ?? d]: only null and undefined take the default. *)
Definition nullish {A : Type} (o : option A) (d : A) : A :=
  match o with
  | Some a => a
  | None => d
  end.

(** [String(n)] for an integer-valued number below 10^21 in magnitude
    (from there on JavaScript prints an exponent). *)
Definition numberToString (n : Z) : string :=
  NilZero.string_of_int (Z.to_int n).

(** What React prints for a [{value}] child that is a number, null or
    undefined: the number's decimal text, and nothing for null and
    undefined. *)
Definition jsxNumber (o : option Z) : string :=
  match o with
  | Some n => numberToString n
  | None => ""
  end.

(** [Array.prototype.slice]: a negative index counts from the end, and
    both indices are clamped to the array. *)
Definition relativeIndex (len k : Z) : Z :=
  if (k <? 0)%Z then Z.max (len + k) 0 else Z.min k len.

Definition slice {A : Type} (start final : Z) (l : list A) : list A :=
  let len := Z.of_nat (length l) in
  let k := relativeIndex len start in
  let e := relativeIndex len final in
  firstn (Z.to_nat (e - k)) (skipn (Z.to_nat k) l).

(** [a?.f(...)] on an array that may be undefined. *)
Definition optChain {A B : Type} (o : option A) (f : A -> B) : option B :=
  match o with
  | Some a => Some (f a)
  | None => None
  end.

(** [cond && <element>] inside JSX, for a [cond] that is a string, null
    or undefined: the element is rendered when [cond] is truthy, and
    nothing otherwise (an empty string prints nothing). *)
Definition whenTruthy {A : Type} (o : option string) (f : string -> A)
  : list A :=
  match o with
  | Some s => if truthy s then [f s] else []
  | None => []
  end.

End JS.

(* ================================================================== *)
(** ** Records exchanged with the API ([@shared/schema]) *)

(** A value of [Date]: the UTC calendar and clock fields that
    [toISOString] prints. *)
Record JSDate : Type := mkDate {
  utcFullYear : Z;
  utcMonth : Z;        (* 1 .. 12, as printed *)
  utcDate : Z;         (* day of the month *)
  utcHours : Z;
  utcMinutes : Z;
  utcSeconds : Z;
  utcMilliseconds : Z
}.

(** [project.deadline] is read both as a string and as a [Date]. *)
Inductive DeadlineValue : Type :=
| DeadlineString (s : string)
| DeadlineDate (d : JSDate).

Module Project.
Record t : Type := mk {
  id : string;
  clientId : string;
  name : string;
  description : option string;
  status : string;
  budget : option string;
  progress : option Z;
  deadline : option DeadlineValue;
  shortVideoUrl : option string;
  fullFeatureVideoUrl : option string;
  hostingLink : option string;
  adminLoginLink : option string;
  adminUsername : option string;
  adminPassword : option string;
  credentialsNotes : option string
}.
End Project.

Module Invoice.
Record t : Type := mk {
  id : string;
  invoiceNumber : string;
  amount : string;
  dueDate : string;
  status : string
}.
End Invoice.

Module ProjectCredentials.
Record t : Type := mk {
  id : string;
  projectName : string;
  thumbnailUrl : option string;
  hostingPlatform : option string;
  shortDescription : option string;
  liveLink : option string;
  adminPanelLink : option string;
  databaseUrl : option string;
  serverCredentials : option string;
  shortVideoUrl : option string;
  fullVideoUrl : option string
}.
End ProjectCredentials.

(* ================================================================== *)
(** ** Status colouring *)

(** The class list both pages use in the [default] arm of the switch. *)
Definition defaultTag : string := "bg-muted text-muted-foreground".

Definition projectStatuses : list string :=
  ["planning"; "active"; "on-hold"; "completed"].

Definition invoiceStatuses : list string :=
  ["draft"; "sent"; "paid"; "overdue"].

Definition knownStatuses : list string := projectStatuses ++ invoiceStatuses.

(** [getStatusColor] of client-dashboard.tsx. *)
Module Dashboard.

Definition getStatusColor (status : string) : string :=
  if status =? "planning" then "bg-gray-100 text-gray-700 dark:bg-gray-800 dark:text-gray-300"
  else if status =? "active" then "bg-blue-100 text-blue-700 dark:bg-blue-950 dark:text-blue-300"
  else if status =? "on-hold" then "bg-yellow-100 text-yellow-700 dark:bg-yellow-950 dark:text-yellow-300"
  else if status =? "completed" then "bg-green-100 text-green-700 dark:bg-green-950 dark:text-green-300"
  else if status =? "draft" then "bg-gray-100 text-gray-700 dark:bg-gray-800 dark:text-gray-300"
  else if status =? "sent" then "bg-blue-100 text-blue-700 dark:bg-blue-950 dark:text-blue-300"
  else if status =? "paid" then "bg-green-100 text-green-700 dark:bg-green-950 dark:text-green-300"
  else if status =? "overdue" then "bg-red-100 text-red-700 dark:bg-red-950 dark:text-red-300"
  else "bg-muted text-muted-foreground".

(** *** KPI cards *)

(** [ClientDashboardStats].  The interface declares every field a
    number; the page guards each read with [?.] and [??], so a field may
    be missing.  Counts are integers; the two amounts are numbers of
    type [number], printed by [toFixed]. *)
Record ClientDashboardStats (number : Type) : Type := mkStats {
  totalProjects : option Z;
  activeProjects : option Z;
  completedProjects : option Z;
  totalInvoices : option Z;
  totalSpent : option number;
  pendingAmount : option number;
  paidInvoices : option Z
}.
Arguments mkStats {number}.
Arguments totalProjects {number}.
Arguments activeProjects {number}.
Arguments completedProjects {number}.
Arguments totalInvoices {number}.
Arguments totalSpent {number}.
Arguments pendingAmount {number}.
Arguments paidInvoices {number}.

(** A KPI's value is a number or a template string. *)
Inductive KpiValue : Type :=
| KNumber (n : Z)
| KText (s : string).

Record Kpi : Type := mkKpi {
  title : string;
  value : KpiValue;
  icon : string;
  color : string;
  bgColor : string
}.

Section Kpis.
Context {number : Type}.
(** [Number.prototype.toFixed], a built-in on floating-point numbers. *)
Variable toFixed : number -> Z -> string.

(** [stats?.field ?? 0] *)
Definition count (stats : option (ClientDashboardStats number))
  (field : ClientDashboardStats number -> option Z) : Z :=
  JS.nullish (match stats with Some s => field s | None => None end) 0%Z.

(** [`${stats?.field?.toFixed(2) ?? "0.00"}`] *)
Definition money (stats : option (ClientDashboardStats number))
  (field : ClientDashboardStats number -> option number) : string :=
  JS.nullish
    (match stats with
     | Some s => JS.optChain (field s) (fun x => toFixed x 2%Z)
     | None => None
     end)
    "0.00".

Definition kpis (stats : option (ClientDashboardStats number)) : list Kpi :=
  [ mkKpi "Total Projects" (KNumber (count stats totalProjects))
      "Briefcase" "text-purple-600" "bg-purple-100 dark:bg-purple-950";
    mkKpi "Active Projects" (KNumber (count stats activeProjects))
      "Clock" "text-blue-600" "bg-blue-100 dark:bg-blue-950";
    mkKpi "Completed Projects" (KNumber (count stats completedProjects))
      "CheckCircle" "text-green-600" "bg-green-100 dark:bg-green-950";
    mkKpi "Total Spent" (KText (money stats totalSpent))
      "DollarSign" "text-emerald-600" "bg-emerald-100 dark:bg-emerald-950";
    mkKpi "Pending Amount" (KText (money stats pendingAmount))
      "AlertCircle" "text-orange-600" "bg-orange-100 dark:bg-orange-950";
    mkKpi "Paid Invoices" (KNumber (count stats paidInvoices))
      "FileText" "text-teal-600" "bg-teal-100 dark:bg-teal-950" ].

(** The text of [{kpi.value}] in a card. *)
Definition valueText (v : KpiValue) : string :=
  match v with
  | KNumber n => JS.numberToString n
  | KText s => s
  end.

(** The KPI grid: while [statsLoading] the page returns the skeleton,
    which shows no KPI; otherwise one card per KPI, title and value. *)
Definition kpiCards (statsLoading : bool)
  (stats : option (ClientDashboardStats number))
  : option (list (string * string)) :=
  if statsLoading then None
  else Some (map (fun k => (title k, valueText (value k))) (kpis stats)).
End Kpis.

(** *** The two list panels *)

(** The rows of "Active Projects":
    [projects?.filter(p => p.status === "active").slice(0, 5)]. *)
Definition isActive (p : Project.t) : bool := Project.status p =? "active".

Definition activeProjects_shown (projects : option (list Project.t))
  : option (list Project.t) :=
  JS.optChain projects (fun ps => JS.slice 0 5 (filter isActive ps)).

(** One row of the panel: the progress bar's value and the badge. *)
Record ProjectRow : Type := mkProjectRow {
  rowTestId : string;
  rowName : string;
  progressBar : Z;
  badgeClass : string;
  badgeText : string
}.

Definition projectRow (project : Project.t) : ProjectRow :=
  {| rowTestId := "project-" ++ Project.id project;
     rowName := Project.name project;
     progressBar := JS.nullish (Project.progress project) 0%Z;
     badgeClass := "ml-4 " ++ getStatusColor (Project.status project);
     badgeText := JS.jsxNumber (Project.progress project) ++ "%" |}.

Definition activeProjectsPanel (projects : option (list Project.t))
  : list ProjectRow :=
  match activeProjects_shown projects with
  | Some ps => map projectRow ps
  | None => []
  end.

(** The rows of "Recent Invoices": [invoices?.slice(0, 5)]. *)
Definition recentInvoices_shown (invoices : option (list Invoice.t))
  : option (list Invoice.t) :=
  JS.optChain invoices (JS.slice 0 5).

(** *** Credential cards *)

Inductive ClickAction : Type :=
| CopyToClipboard (text field : string)
| WindowOpen (url : string).

(** A button; its [data-testid] is [testKind ++ "-" ++ testKey]. *)
Record Button : Type := mkButton {
  testKind : string;
  testKey : string;
  onClick : ClickAction
}.

Record LinkRow : Type := mkLinkRow {
  label : string;
  buttons : list Button
}.

Record CredentialCard : Type := mkCard {
  cardKey : string;
  thumbnail : option string;
  cardTitle : string;
  platformBadge : list string;
  descriptionText : list string;
  linkRows : list LinkRow;
  videoBar : list (list Button)
}.

Definition credentialCard (credential : ProjectCredentials.t)
  : CredentialCard :=
  let cid := ProjectCredentials.id credential in
  {| cardKey := cid;
     thumbnail :=
       match ProjectCredentials.thumbnailUrl credential with
       | Some u => if JS.truthy u then Some ("/" ++ u) else None
       | None => None
       end;
     cardTitle := ProjectCredentials.projectName credential;
     platformBadge :=
       JS.whenTruthy (ProjectCredentials.hostingPlatform credential) (fun s => s);
     descriptionText :=
       JS.whenTruthy (ProjectCredentials.shortDescription credential) (fun s => s);
     linkRows :=
       (JS.whenTruthy (ProjectCredentials.liveLink credential)
         (fun v => mkLinkRow "Live Website"
            [ mkButton "button-copy-live" cid (CopyToClipboard v ("live-" ++ cid));
              mkButton "button-open-live" cid (WindowOpen v) ])
       ++ JS.whenTruthy (ProjectCredentials.adminPanelLink credential)
         (fun v => mkLinkRow "Admin Panel"
            [ mkButton "button-copy-admin" cid (CopyToClipboard v ("admin-" ++ cid));
              mkButton "button-open-admin" cid (WindowOpen v) ])
       ++ JS.whenTruthy (ProjectCredentials.databaseUrl credential)
         (fun v => mkLinkRow "Database URL"
            [ mkButton "button-copy-db" cid (CopyToClipboard v ("db-" ++ cid)) ])
       ++ JS.whenTruthy (ProjectCredentials.serverCredentials credential)
         (fun v => mkLinkRow "Server Credentials"
            [ mkButton "button-copy-server" cid (CopyToClipboard v ("server-" ++ cid)) ]))%list;
     videoBar :=
       if JS.truthyOpt (ProjectCredentials.shortVideoUrl credential)
          || JS.truthyOpt (ProjectCredentials.fullVideoUrl credential)
       then
         [ (JS.whenTruthy (ProjectCredentials.shortVideoUrl credential)
              (fun v => mkButton "button-short-video" cid (WindowOpen v))
            ++ JS.whenTruthy (ProjectCredentials.fullVideoUrl credential)
              (fun v => mkButton "button-full-video" cid (WindowOpen v)))%list ]
       else [] |}.

(** [credentials && credentials.length > 0 && (...)]: the section, when
    rendered, holds one card per record. *)
Definition credentialsSection (credentials : option (list ProjectCredentials.t))
  : option (list CredentialCard) :=
  match credentials with
  | Some cs => if (0 <? Z.of_nat (length cs))%Z
               then Some (map credentialCard cs)
               else None
  | None => None
  end.

End Dashboard.

(* ================================================================== *)
(** ** Dates as text *)

Fixpoint zeros (n : nat) : string :=
  match n with
  | O => ""
  | S n' => String "0" (zeros n')
  end.

(** [String(n).padStart(width, "0")] *)
Definition digits (width : nat) (n : Z) : string :=
  let s := JS.numberToString n in
  zeros (width - String.length s) ++ s.

(** The year of [toISOString]: four digits for the years 0 to 9999, and a
    sign with six digits outside. *)
Definition isoYear (y : Z) : string :=
  if ((0 <=? y) && (y <=? 9999))%Z then digits 4 y
  else (if (y <? 0)%Z then "-" else "+") ++ digits 6 (Z.abs y).

(** [Date.prototype.toISOString]: [YYYY-MM-DDTHH:mm:ss.sssZ]. *)
Definition toISOString (d : JSDate) : string :=
  isoYear (utcFullYear d) ++ "-" ++ digits 2 (utcMonth d) ++ "-"
  ++ digits 2 (utcDate d) ++ "T" ++ digits 2 (utcHours d) ++ ":"
  ++ digits 2 (utcMinutes d) ++ ":" ++ digits 2 (utcSeconds d) ++ "."
  ++ digits 3 (utcMilliseconds d) ++ "Z".

(** [s.split(sep)] for a one-character separator; the result is never
    empty. *)
Fixpoint split (sep : ascii) (s : string) : list string :=
  match s with
  | EmptyString => [""]
  | String c rest =>
      if Ascii.eqb c sep then "" :: split sep rest
      else match split sep rest with
           | p :: ps => String c p :: ps
           | [] => [String c ""]
           end
  end.

(** [new Date(d).toISOString().split('T')[0]] *)
Definition isoDatePart (d : JSDate) : string :=
  nth 0 (split "T" (toISOString d)) "".

(** A calendar date: year, month, day. *)
Definition CalendarDate : Type := (Z * Z * Z)%type.

Definition digitValue (c : ascii) : option Z :=
  let n := nat_of_ascii c in
  if (48 <=? n)%nat && (n <=? 57)%nat then Some (Z.of_nat (n - 48)) else None.

(** The number written by exactly four, or exactly two, decimal digits. *)
Definition fourDigitText (s : string) : option Z :=
  match s with
  | String a (String b (String c (String d EmptyString))) =>
      match digitValue a, digitValue b, digitValue c, digitValue d with
      | Some va, Some vb, Some vc, Some vd =>
          Some (1000 * va + 100 * vb + 10 * vc + vd)%Z
      | _, _, _, _ => None
      end
  | _ => None
  end.

Definition twoDigitText (s : string) : option Z :=
  match s with
  | String a (String b EmptyString) =>
      match digitValue a, digitValue b with
      | Some va, Some vb => Some (10 * va + vb)%Z
      | _, _ => None
      end
  | _ => None
  end.

(** The calendar date a string denotes: a leading [YYYY-MM-DD], alone or
    followed by the [T] of a date-time; [None] for any other text. *)
Definition calendarDate (s : string) : option CalendarDate :=
  match s with
  | String y1 (String y2 (String y3 (String y4 (String h1
      (String m1 (String m2 (String h2 (String d1 (String d2 rest))))))))) =>
      match digitValue y1, digitValue y2, digitValue y3, digitValue y4,
            digitValue m1, digitValue m2, digitValue d1, digitValue d2 with
      | Some a, Some b, Some c, Some d, Some e, Some f, Some g, Some h =>
          if Ascii.eqb h1 "-" && Ascii.eqb h2 "-"
             && match rest with
                | EmptyString => true
                | String t _ => Ascii.eqb t "T"
                end
          then Some (1000 * a + 100 * b + 10 * c + d, 10 * e + f, 10 * g + h)%Z
          else None
      | _, _, _, _, _, _, _, _ => None
      end
  | _ => None
  end.

Definition formatCalendarDate (cd : CalendarDate) : string :=
  let '(y, m, d) := cd in
  digits 4 y ++ "-" ++ digits 2 m ++ "-" ++ digits 2 d.

(** The calendar date of a stored deadline: the date a string denotes,
    and the UTC date of a [Date]. *)
Definition deadlineCalendarDate (dv : DeadlineValue) : option CalendarDate :=
  match dv with
  | DeadlineString s => calendarDate s
  | DeadlineDate d => Some (utcFullYear d, utcMonth d, utcDate d)
  end.

(** The [Date] fields are those of a calendar date with a four-digit
    year. *)
Definition plainDate (d : JSDate) : Prop :=
  (0 <= utcFullYear d <= 9999)%Z /\ (1 <= utcMonth d <= 12)%Z /\
  (1 <= utcDate d <= 31)%Z.

(* ================================================================== *)
(** ** The project form ([ProjectFormData]) *)

Module ProjectFormData.
Record t : Type := mk {
  clientId : string;
  name : string;
  description : option string;
  status : string;
  budget : option string;
  progress : option Z;
  deadline : option string;
  shortVideoUrl : option string;
  fullFeatureVideoUrl : option string;
  hostingLink : option string;
  adminLoginLink : option string;
  adminUsername : option string;
  adminPassword : option string;
  credentialsNotes : option string
}.

Definition set_adminPassword (v : option string) (d : t) : t :=
  {| clientId := clientId d; name := name d; description := description d;
     status := status d; budget := budget d; progress := progress d;
     deadline := deadline d; shortVideoUrl := shortVideoUrl d;
     fullFeatureVideoUrl := fullFeatureVideoUrl d;
     hostingLink := hostingLink d; adminLoginLink := adminLoginLink d;
     adminUsername := adminUsername d; adminPassword := v;
     credentialsNotes := credentialsNotes d |}.

Definition set_deadline (v : option string) (d : t) : t :=
  {| clientId := clientId d; name := name d; description := description d;
     status := status d; budget := budget d; progress := progress d;
     deadline := v; shortVideoUrl := shortVideoUrl d;
     fullFeatureVideoUrl := fullFeatureVideoUrl d;
     hostingLink := hostingLink d; adminLoginLink := adminLoginLink d;
     adminUsername := adminUsername d; adminPassword := adminPassword d;
     credentialsNotes := credentialsNotes d |}.
End ProjectFormData.

(** [normalizeProjectData] of [@/lib/normalizeDateInputs]. *)
Module NormalizeDateInputs.

(** Modelled from the spec: the date coercion of
    [lib/normalizeDateInputs], whose source is not part of the two pages.
    "Date-only fields are validated/coerced to a canonical date
    representation": a text that denotes a calendar date becomes that
    date's [YYYY-MM-DD]; any other text, the empty string included, is
    "submitted as such". *)
Definition normalizeDateInput (s : string) : string :=
  match calendarDate s with
  | Some cd => formatCalendarDate cd
  | None => s
  end.

(** Modelled from the spec: [normalizeProjectData] of
    [lib/normalizeDateInputs], whose source is not part of the two pages.
    Only the date field is coerced; "budget stays a decimal string",
    progress stays the integer the form holds, and "fields that are empty
    strings are submitted as such (not silently dropped)". *)
Definition normalizeProjectData (data : ProjectFormData.t) : ProjectFormData.t :=
  ProjectFormData.set_deadline
    (JS.optChain (ProjectFormData.deadline data) normalizeDateInput) data.

End NormalizeDateInputs.

(** [getStatusColor] of projects.tsx. *)
Module ProjectsPage.

Definition getStatusColor (status : string) : string :=
  if status =? "planning" then "bg-blue-100 text-blue-700 dark:bg-blue-950 dark:text-blue-300"
  else if status =? "active" then "bg-green-100 text-green-700 dark:bg-green-950 dark:text-green-300"
  else if status =? "on-hold" then "bg-yellow-100 text-yellow-700 dark:bg-yellow-950 dark:text-yellow-300"
  else if status =? "completed" then "bg-purple-100 text-purple-700 dark:bg-purple-950 dark:text-purple-300"
  else "bg-muted text-muted-foreground".

(** *** Page state *)

Record Toast : Type := mkToast {
  toastTitle : string;
  toastDescription : string;
  toastVariant : option string
}.

(** The form of [useForm]: the current values, and the values a bare
    [reset()] goes back to. *)
Record FormState : Type := mkForm {
  values : ProjectFormData.t;
  defaultValues : ProjectFormData.t
}.

(** A call of [apiRequest]. *)
Inductive Request : Type :=
| POST_projects (data : ProjectFormData.t)
| PATCH_project (id : string) (data : ProjectFormData.t).

Record PageState : Type := mkState {
  open : bool;
  editingProject : option Project.t;
  showPassword : bool;
  form : FormState;
  toasts : list Toast;
  requests : list Request;
  invalidations : nat
}.

(** The [defaultValues] given to [useForm]. *)
Definition initialValues : ProjectFormData.t :=
  {| ProjectFormData.clientId := "";
     ProjectFormData.name := "";
     ProjectFormData.description := Some "";
     ProjectFormData.status := "planning";
     ProjectFormData.budget := Some "0";
     ProjectFormData.progress := Some 0%Z;
     ProjectFormData.deadline := None;
     ProjectFormData.shortVideoUrl := Some "";
     ProjectFormData.fullFeatureVideoUrl := Some "";
     ProjectFormData.hostingLink := Some "";
     ProjectFormData.adminLoginLink := Some "";
     ProjectFormData.adminUsername := Some "";
     ProjectFormData.adminPassword := Some "";
     ProjectFormData.credentialsNotes := Some "" |}.

Definition initialState : PageState :=
  {| open := false; editingProject := None; showPassword := false;
     form := mkForm initialValues initialValues;
     toasts := []; requests := []; invalidations := 0 |}.

(** *** Handlers as state transformers *)

Definition Handler (A : Type) : Type := PageState -> A * PageState.

Definition ret {A : Type} (a : A) : Handler A := fun st => (a, st).

Definition bind {A B : Type} (h : Handler A) (k : A -> Handler B) : Handler B :=
  fun st => let '(a, st') := h st in k a st'.

Notation "x <- h ;; k" := (bind h (fun x => k))
  (at level 61, h at next level, right associativity).
Notation "h ;; k" := (bind h (fun _ => k))
  (at level 61, right associativity).

Definition exec (h : Handler unit) (st : PageState) : PageState := snd (h st).

Definition setOpen (o : bool) : Handler unit := fun st =>
  (tt, {| open := o; editingProject := editingProject st;
          showPassword := showPassword st; form := form st;
          toasts := toasts st; requests := requests st;
          invalidations := invalidations st |}).

Definition setEditingProject (p : option Project.t) : Handler unit := fun st =>
  (tt, {| open := open st; editingProject := p;
          showPassword := showPassword st; form := form st;
          toasts := toasts st; requests := requests st;
          invalidations := invalidations st |}).

Definition setShowPassword (b : bool) : Handler unit := fun st =>
  (tt, {| open := open st; editingProject := editingProject st;
          showPassword := b; form := form st;
          toasts := toasts st; requests := requests st;
          invalidations := invalidations st |}).

Definition setForm (f : FormState) : Handler unit := fun st =>
  (tt, {| open := open st; editingProject := editingProject st;
          showPassword := showPassword st; form := f;
          toasts := toasts st; requests := requests st;
          invalidations := invalidations st |}).

(** [form.reset(v)] installs [v] as values and as defaults; a bare
    [form.reset()] goes back to the defaults. *)
Definition form_reset (v : option ProjectFormData.t) : Handler unit := fun st =>
  match v with
  | Some d => setForm (mkForm d d) st
  | None => setForm (mkForm (defaultValues (form st)) (defaultValues (form st))) st
  end.

Definition toast (t : Toast) : Handler unit := fun st =>
  (tt, {| open := open st; editingProject := editingProject st;
          showPassword := showPassword st; form := form st;
          toasts := (toasts st ++ [t])%list; requests := requests st;
          invalidations := invalidations st |}).

Definition apiRequest (r : Request) : Handler unit := fun st =>
  (tt, {| open := open st; editingProject := editingProject st;
          showPassword := showPassword st; form := form st;
          toasts := toasts st; requests := (requests st ++ [r])%list;
          invalidations := invalidations st |}).

Definition invalidateQueries : Handler unit := fun st =>
  (tt, {| open := open st; editingProject := editingProject st;
          showPassword := showPassword st; form := form st;
          toasts := toasts st; requests := requests st;
          invalidations := S (invalidations st) |}).

Definition getState : Handler PageState := fun st => (st, st).

(** *** Mutations *)

(** The [Error] a failed request rejects with. *)
Record Error : Type := mkError { message : string }.

Definition createMutation_onSuccess : Handler unit :=
  invalidateQueries ;;
  toast (mkToast "Success" "Project created successfully" None) ;;
  setOpen false ;;
  setEditingProject None ;;
  form_reset None.

Definition createMutation_onError (error : Error) : Handler unit :=
  toast (mkToast "Error" (message error) (Some "destructive")).

Definition updateMutation_onSuccess : Handler unit :=
  invalidateQueries ;;
  toast (mkToast "Success" "Project updated successfully" None) ;;
  setOpen false ;;
  setEditingProject None ;;
  form_reset None.

Definition updateMutation_onError (error : Error) : Handler unit :=
  toast (mkToast "Error" (message error) (Some "destructive")).

(** The outcome of a mutation, as the query client reports it. *)
Inductive Outcome : Type :=
| Succeeded
| Failed (error : Error).

Definition createMutation_settle (o : Outcome) : Handler unit :=
  match o with
  | Succeeded => createMutation_onSuccess
  | Failed e => createMutation_onError e
  end.

Definition updateMutation_settle (o : Outcome) : Handler unit :=
  match o with
  | Succeeded => updateMutation_onSuccess
  | Failed e => updateMutation_onError e
  end.

(** *** The form handlers *)

(** The request [onSubmit] sends for the form values [data]. *)
Definition onSubmit (data : ProjectFormData.t) : Handler unit :=
  let normalizedData := NormalizeDateInputs.normalizeProjectData data in
  st <- getState ;;
  match editingProject st with
  | Some p => apiRequest (PATCH_project (Project.id p) normalizedData)
  | None => apiRequest (POST_projects normalizedData)
  end.

(** The deadline text of the edit form. *)
Definition deadlineInput (deadline : option DeadlineValue) : string :=
  match deadline with
  | Some (DeadlineString s) => if JS.truthy s then s else ""
  | Some (DeadlineDate d) => isoDatePart d
  | None => ""
  end.

(** The object [handleEdit] passes to [form.reset]. *)
Definition editValues (project : Project.t) : ProjectFormData.t :=
  {| ProjectFormData.clientId := Project.clientId project;
     ProjectFormData.name := Project.name project;
     ProjectFormData.description := Some (JS.orElse (Project.description project) "");
     ProjectFormData.status := Project.status project;
     ProjectFormData.budget := Some (JS.orElse (Project.budget project) "0");
     ProjectFormData.progress := Some (JS.nullish (Project.progress project) 0%Z);
     ProjectFormData.deadline := Some (deadlineInput (Project.deadline project));
     ProjectFormData.shortVideoUrl := Some (JS.orElse (Project.shortVideoUrl project) "");
     ProjectFormData.fullFeatureVideoUrl :=
       Some (JS.orElse (Project.fullFeatureVideoUrl project) "");
     ProjectFormData.hostingLink := Some (JS.orElse (Project.hostingLink project) "");
     ProjectFormData.adminLoginLink := Some (JS.orElse (Project.adminLoginLink project) "");
     ProjectFormData.adminUsername := Some (JS.orElse (Project.adminUsername project) "");
     ProjectFormData.adminPassword := Some (JS.orElse (Project.adminPassword project) "");
     ProjectFormData.credentialsNotes :=
       Some (JS.orElse (Project.credentialsNotes project) "") |}.

Definition handleEdit (project : Project.t) : Handler unit :=
  setEditingProject (Some project) ;;
  setShowPassword false ;;
  form_reset (Some (editValues project)) ;;
  setOpen true.

(** The object [handleAddNew] passes to [form.reset]. *)
Definition addNewValues : ProjectFormData.t :=
  {| ProjectFormData.clientId := "";
     ProjectFormData.name := "";
     ProjectFormData.description := Some "";
     ProjectFormData.status := "planning";
     ProjectFormData.budget := Some "0";
     ProjectFormData.progress := Some 0%Z;
     ProjectFormData.deadline := None;
     ProjectFormData.shortVideoUrl := Some "";
     ProjectFormData.fullFeatureVideoUrl := Some "";
     ProjectFormData.hostingLink := Some "";
     ProjectFormData.adminLoginLink := Some "";
     ProjectFormData.adminUsername := Some "";
     ProjectFormData.adminPassword := Some "";
     ProjectFormData.credentialsNotes := Some "" |}.

Definition handleAddNew : Handler unit :=
  setEditingProject None ;;
  setShowPassword false ;;
  form_reset (Some addNewValues) ;;
  setOpen true.

(** The eye button: [setShowPassword(!showPassword)]. *)
Definition togglePassword : Handler unit :=
  st <- getState ;;
  setShowPassword (negb (showPassword st)).

(** Typing in the admin-password input ([field.onChange]). *)
Definition changeAdminPassword (s : string) : Handler unit :=
  st <- getState ;;
  setForm (mkForm (ProjectFormData.set_adminPassword (Some s) (values (form st)))
                  (defaultValues (form st))).

(** The other inputs and selects of the form, by the field they edit. *)
Inductive FormInput : Type :=
| NameInput
| ClientSelect
| StatusSelect
| BudgetInput
| DeadlineInput
| DescriptionInput
| ShortVideoInput
| FullVideoInput
| HostingLinkInput
| AdminLoginLinkInput
| AdminUsernameInput
| CredentialsNotesInput.

Definition isInput (i j : FormInput) : bool :=
  match i, j with
  | NameInput, NameInput => true
  | ClientSelect, ClientSelect => true
  | StatusSelect, StatusSelect => true
  | BudgetInput, BudgetInput => true
  | DeadlineInput, DeadlineInput => true
  | DescriptionInput, DescriptionInput => true
  | ShortVideoInput, ShortVideoInput => true
  | FullVideoInput, FullVideoInput => true
  | HostingLinkInput, HostingLinkInput => true
  | AdminLoginLinkInput, AdminLoginLinkInput => true
  | AdminUsernameInput, AdminUsernameInput => true
  | CredentialsNotesInput, CredentialsNotesInput => true
  | _, _ => false
  end.

(** The form values after [field.onChange] of the input [i]: that field
    takes the text entered (an input's [e.target.value], a select's item
    value), every other field is kept.  The form has no input for
    progress. *)
Definition setInput (i : FormInput) (s : string) (d : ProjectFormData.t)
  : ProjectFormData.t :=
  let text (j : FormInput) (old : string) := if isInput i j then s else old in
  let opt (j : FormInput) (old : option string) :=
    if isInput i j then Some s else old in
  {| ProjectFormData.clientId := text ClientSelect (ProjectFormData.clientId d);
     ProjectFormData.name := text NameInput (ProjectFormData.name d);
     ProjectFormData.description :=
       opt DescriptionInput (ProjectFormData.description d);
     ProjectFormData.status := text StatusSelect (ProjectFormData.status d);
     ProjectFormData.budget := opt BudgetInput (ProjectFormData.budget d);
     ProjectFormData.progress := ProjectFormData.progress d;
     ProjectFormData.deadline := opt DeadlineInput (ProjectFormData.deadline d);
     ProjectFormData.shortVideoUrl :=
       opt ShortVideoInput (ProjectFormData.shortVideoUrl d);
     ProjectFormData.fullFeatureVideoUrl :=
       opt FullVideoInput (ProjectFormData.fullFeatureVideoUrl d);
     ProjectFormData.hostingLink :=
       opt HostingLinkInput (ProjectFormData.hostingLink d);
     ProjectFormData.adminLoginLink :=
       opt AdminLoginLinkInput (ProjectFormData.adminLoginLink d);
     ProjectFormData.adminUsername :=
       opt AdminUsernameInput (ProjectFormData.adminUsername d);
     ProjectFormData.adminPassword := ProjectFormData.adminPassword d;
     ProjectFormData.credentialsNotes :=
       opt CredentialsNotesInput (ProjectFormData.credentialsNotes d) |}.

(** Typing in, or choosing from, one of those inputs. *)
Definition changeField (i : FormInput) (s : string) : Handler unit :=
  st <- getState ;;
  setForm (mkForm (setInput i s (values (form st))) (defaultValues (form st))).

(** *** What the page shows *)

(** The admin-password input of the dialog. *)
Definition passwordInputType (st : PageState) : string :=
  if showPassword st then "text" else "password".

Record DialogView : Type := mkDialog {
  dialogTitle : string;
  passwordType : string;
  passwordValue : string;
  submitLabel : string
}.

(** The dialog's content is rendered only while [open]. *)
Definition dialogView (st : PageState) : option DialogView :=
  if open st then
    Some {| dialogTitle :=
              match editingProject st with
              | Some _ => "Edit Project"
              | None => "Add New Project"
              end;
            passwordType := passwordInputType st;
            passwordValue :=
              JS.nullish (ProjectFormData.adminPassword (values (form st))) "";
            submitLabel :=
              match editingProject st with
              | Some _ => "Update Project"
              | None => "Create Project"
              end |}
  else None.

(** A card of the project grid. *)
Record ProjectCard : Type := mkProjectCard {
  cardTestId : string;
  cardName : string;
  statusBadgeClass : string;
  statusBadgeText : string;
  descriptionLine : list string;
  progressText : string;
  progressBar : Z;
  budgetText : list string
}.

Definition projectCard (project : Project.t) : ProjectCard :=
  {| cardTestId := "card-project-" ++ Project.id project;
     cardName := Project.name project;
     statusBadgeClass := getStatusColor (Project.status project);
     statusBadgeText := Project.status project;
     descriptionLine := JS.whenTruthy (Project.description project) (fun s => s);
     progressText := JS.jsxNumber (Project.progress project) ++ "%";
     progressBar := JS.nullish (Project.progress project) 0%Z;
     budgetText := JS.whenTruthy (Project.budget project) (fun s => "$" ++ s) |}.

(** The grid is replaced by the "No projects yet" card, with its own
    "Add Project" button, when there is no project:
    [!projects || projects.length === 0]. *)
Definition showsEmptyState (projects : option (list Project.t)) : bool :=
  match projects with
  | Some ps => (Z.of_nat (length ps) =? 0)%Z
  | None => true
  end.

(** *** User events *)

Inductive Event : Type :=
| ClickAddProject                  (* header button: [handleAddNew] *)
| ClickProjectCard (i : nat)       (* the i-th card: [handleEdit(project)] *)
| ClickEmptyStateAdd               (* "No projects yet" button: [setOpen(true)] *)
| ClickTogglePassword              (* eye button of the password field *)
| ClickCancel                      (* [setOpen(false)] *)
| DialogDismiss                    (* [onOpenChange(false)] of the dialog *)
| TypeAdminPassword (s : string)
| TypeField (i : FormInput) (s : string)   (* any other input or select *)
| SubmitForm                       (* [onSubmit] with the current values *)
| CreateSettled (o : Outcome)
| UpdateSettled (o : Outcome).

(** One event on the page showing [projects]; [None] when the control is
    not on screen: the dialog's controls exist only while it is open, the
    page's buttons are used while it is closed, a card exists for each
    project, and the empty-state button only when there is none. *)
Definition step (projects : option (list Project.t)) (e : Event)
  (st : PageState) : option PageState :=
  match e with
  | ClickAddProject =>
      if open st then None else Some (exec handleAddNew st)
  | ClickProjectCard i =>
      if open st || showsEmptyState projects then None
      else match nth_error (JS.nullish projects []) i with
           | Some project => Some (exec (handleEdit project) st)
           | None => None
           end
  | ClickEmptyStateAdd =>
      if open st || negb (showsEmptyState projects) then None
      else Some (exec (setOpen true) st)
  | ClickTogglePassword =>
      if open st then Some (exec togglePassword st) else None
  | ClickCancel =>
      if open st then Some (exec (setOpen false) st) else None
  | DialogDismiss =>
      if open st then Some (exec (setOpen false) st) else None
  | TypeAdminPassword s =>
      if open st then Some (exec (changeAdminPassword s) st) else None
  | TypeField i s =>
      if open st then Some (exec (changeField i s) st) else None
  | SubmitForm =>
      if open st then Some (exec (onSubmit (values (form st))) st) else None
  | CreateSettled o => Some (exec (createMutation_settle o) st)
  | UpdateSettled o => Some (exec (updateMutation_settle o) st)
  end.

Fixpoint run (projects : option (list Project.t)) (es : list Event)
  (st : PageState) : option PageState :=
  match es with
  | [] => Some st
  | e :: es' =>
      match step projects e st with
      | Some st' => run projects es' st'
      | None => None
      end
  end.

End ProjectsPage.

(* ================================================================== *)
(** ** Notions the properties are stated with *)

(** The first at most [n] elements of [l] that satisfy [keep], in the
    order of [l]. *)
Fixpoint firstMatching {A : Type} (n : nat) (keep : A -> bool) (l : list A)
  : list A :=
  match n, l with
  | O, _ => []
  | _, [] => []
  | S n', x :: xs =>
      if keep x then x :: firstMatching n' keep xs
      else firstMatching n keep xs
  end.


(** The six credential fields that carry an action. *)
Inductive CredentialField : Type :=
| LiveLink
| AdminPanelLink
| DatabaseUrl
| ServerCredentials
| ShortVideoUrl
| FullVideoUrl.

Definition credentialFields : list CredentialField :=
  [LiveLink; AdminPanelLink; DatabaseUrl; ServerCredentials;
   ShortVideoUrl; FullVideoUrl].

Definition fieldOf (f : CredentialField) (c : ProjectCredentials.t)
  : option string :=
  match f with
  | LiveLink => ProjectCredentials.liveLink c
  | AdminPanelLink => ProjectCredentials.adminPanelLink c
  | DatabaseUrl => ProjectCredentials.databaseUrl c
  | ServerCredentials => ProjectCredentials.serverCredentials c
  | ShortVideoUrl => ProjectCredentials.shortVideoUrl c
  | FullVideoUrl => ProjectCredentials.fullVideoUrl c
  end.

(** A field is present when it is set to a non-empty string. *)
Definition present (f : CredentialField) (c : ProjectCredentials.t) : bool :=
  JS.truthyOpt (fieldOf f c).

(** A field has a value: it is set, and to a string that is not
    empty. *)
Definition hasValue (f : CredentialField) (c : ProjectCredentials.t) : Prop :=
  exists v, fieldOf f c = Some v /\ v <> "".

(** The buttons of a field's action group, by the kind of their test id. *)
Definition groupButtons (f : CredentialField) : list string :=
  match f with
  | LiveLink => ["button-copy-live"; "button-open-live"]
  | AdminPanelLink => ["button-copy-admin"; "button-open-admin"]
  | DatabaseUrl => ["button-copy-db"]
  | ServerCredentials => ["button-copy-server"]
  | ShortVideoUrl => ["button-short-video"]
  | FullVideoUrl => ["button-full-video"]
  end.

Definition cardButtons (card : Dashboard.CredentialCard) : list Dashboard.Button :=
  (flat_map Dashboard.buttons (Dashboard.linkRows card)
   ++ concat (Dashboard.videoBar card))%list.

Definition hasButton (kind : string) (card : Dashboard.CredentialCard) : bool :=
  existsb (fun b => Dashboard.testKind b =? kind) (cardButtons card).

(** The card holds the whole action group of [f]. *)
Definition showsGroup (f : CredentialField) (card : Dashboard.CredentialCard)
  : bool :=
  forallb (fun k => hasButton k card) (groupButtons f).

(** The card holds some button of the action group of [f]. *)
Definition showsPartOfGroup (f : CredentialField)
  (card : Dashboard.CredentialCard) : bool :=
  existsb (fun k => hasButton k card) (groupButtons f).

Definition shownGroups (card : Dashboard.CredentialCard) : list CredentialField :=
  filter (fun f => showsPartOfGroup f card) credentialFields.

(** Load and save of the entity normalizer. *)
Definition load (R : Project.t) : ProjectFormData.t :=
  ProjectsPage.editValues R.

Definition save (data : ProjectFormData.t) : ProjectFormData.t :=
  NormalizeDateInputs.normalizeProjectData data.

(** A saved deadline equals a stored one as a calendar date; a stored
    text that denotes no date is compared as text. *)
Definition sameDeadline (stored : option DeadlineValue) (saved : option string)
  : Prop :=
  match stored, saved with
  | None, None => True
  | Some dv, Some s =>
      match deadlineCalendarDate dv with
      | Some cd => calendarDate s = Some cd
      | None => dv = DeadlineString s
      end
  | _, _ => False
  end.

(** Semantic equality of a saved patch and a canonical record: the same
    value in every field, the deadline compared as a calendar date. *)
Definition SemanticallyEqual (R : Project.t) (patch : ProjectFormData.t) : Prop :=
  ProjectFormData.clientId patch = Project.clientId R /\
  ProjectFormData.name patch = Project.name R /\
  ProjectFormData.description patch = Project.description R /\
  ProjectFormData.status patch = Project.status R /\
  ProjectFormData.budget patch = Project.budget R /\
  ProjectFormData.progress patch = Project.progress R /\
  sameDeadline (Project.deadline R) (ProjectFormData.deadline patch) /\
  ProjectFormData.shortVideoUrl patch = Project.shortVideoUrl R /\
  ProjectFormData.fullFeatureVideoUrl patch = Project.fullFeatureVideoUrl R /\
  ProjectFormData.hostingLink patch = Project.hostingLink R /\
  ProjectFormData.adminLoginLink patch = Project.adminLoginLink R /\
  ProjectFormData.adminUsername patch = Project.adminUsername R /\
  ProjectFormData.adminPassword patch = Project.adminPassword R /\
  ProjectFormData.credentialsNotes patch = Project.credentialsNotes R.

(** A text field after load and save: the stored value when that is a
    non-empty string, and the form's default [dflt] when the field is
    absent or empty. *)
Definition keptOrDefault (dflt : string) (stored saved : option string) : Prop :=
  match stored with
  | Some v => (v <> "" -> saved = Some v) /\ (v = "" -> saved = Some dflt)
  | None => saved = Some dflt
  end.

Definition keptOrZero (stored saved : option Z) : Prop :=
  match stored with
  | Some n => saved = Some n
  | None => saved = Some 0%Z
  end.

(** The deadline after load and save: the same calendar date when the
    stored value denotes one, the same text when it is some other text,
    and the empty string when it is absent. *)
Definition deadlineKept (stored : option DeadlineValue) (saved : option string)
  : Prop :=
  match stored with
  | Some dv =>
      match deadlineCalendarDate dv with
      | Some cd => exists s, saved = Some s /\ calendarDate s = Some cd
      | None => exists s, dv = DeadlineString s /\ saved = Some s
      end
  | None => saved = Some ""
  end.

Definition EqualUpToDefaults (R : Project.t) (patch : ProjectFormData.t) : Prop :=
  ProjectFormData.clientId patch = Project.clientId R /\
  ProjectFormData.name patch = Project.name R /\
  keptOrDefault "" (Project.description R) (ProjectFormData.description patch) /\
  ProjectFormData.status patch = Project.status R /\
  keptOrDefault "0" (Project.budget R) (ProjectFormData.budget patch) /\
  keptOrZero (Project.progress R) (ProjectFormData.progress patch) /\
  deadlineKept (Project.deadline R) (ProjectFormData.deadline patch) /\
  keptOrDefault "" (Project.shortVideoUrl R) (ProjectFormData.shortVideoUrl patch) /\
  keptOrDefault "" (Project.fullFeatureVideoUrl R)
    (ProjectFormData.fullFeatureVideoUrl patch) /\
  keptOrDefault "" (Project.hostingLink R) (ProjectFormData.hostingLink patch) /\
  keptOrDefault "" (Project.adminLoginLink R) (ProjectFormData.adminLoginLink patch) /\
  keptOrDefault "" (Project.adminUsername R) (ProjectFormData.adminUsername patch) /\
  keptOrDefault "" (Project.adminPassword R) (ProjectFormData.adminPassword patch) /\
  keptOrDefault "" (Project.credentialsNotes R)
    (ProjectFormData.credentialsNotes patch).

(** A stored [Date] deadline is a calendar date with a four-digit year. *)
Definition deadlinePlain (R : Project.t) : Prop :=
  match Project.deadline R with
  | Some (DeadlineDate d) => plainDate d
  | _ => True
  end.

(** Every optional field of the record is set, and the budget is not the
    empty string. *)
Definition fullyPopulated (R : Project.t) : Prop :=
  Project.description R <> None /\
  JS.truthyOpt (Project.budget R) = true /\
  Project.progress R <> None /\
  Project.deadline R <> None /\
  Project.shortVideoUrl R <> None /\
  Project.fullFeatureVideoUrl R <> None /\
  Project.hostingLink R <> None /\
  Project.adminLoginLink R <> None /\
  Project.adminUsername R <> None /\
  Project.adminPassword R <> None /\
  Project.credentialsNotes R <> None.

(** *** Sample records *)

Definition sampleProject : Project.t :=
  {| Project.id := "p1";
     Project.clientId := "c1";
     Project.name := "Website Redesign";
     Project.description := Some "New marketing site";
     Project.status := "active";
     Project.budget := Some "5000.00";
     Project.progress := Some 40%Z;
     Project.deadline := Some (DeadlineDate (mkDate 2025 3 9 18 30 0 0));
     Project.shortVideoUrl := Some "https://video.example/short";
     Project.fullFeatureVideoUrl := Some "https://video.example/full";
     Project.hostingLink := Some "https://site.example";
     Project.adminLoginLink := Some "https://site.example/admin";
     Project.adminUsername := Some "admin";
     Project.adminPassword := Some "s3cret";
     Project.credentialsNotes := Some "rotate quarterly" |}.

(** A project with no progress recorded. *)
Definition unstartedProject : Project.t :=
  {| Project.id := "p3";
     Project.clientId := "c1";
     Project.name := "Mobile App";
     Project.description := Some "Companion app";
     Project.status := "active";
     Project.budget := Some "1200.00";
     Project.progress := None;
     Project.deadline := None;
     Project.shortVideoUrl := None;
     Project.fullFeatureVideoUrl := None;
     Project.hostingLink := None;
     Project.adminLoginLink := None;
     Project.adminUsername := None;
     Project.adminPassword := None;
     Project.credentialsNotes := None |}.

(** A project like [sampleProject] with no budget recorded. *)
Definition unbudgetedProject : Project.t :=
  {| Project.id := "p2";
     Project.clientId := "c1";
     Project.name := "Website Redesign";
     Project.description := Some "New marketing site";
     Project.status := "active";
     Project.budget := None;
     Project.progress := Some 40%Z;
     Project.deadline := Some (DeadlineString "2025-03-09");
     Project.shortVideoUrl := Some "https://video.example/short";
     Project.fullFeatureVideoUrl := Some "https://video.example/full";
     Project.hostingLink := Some "https://site.example";
     Project.adminLoginLink := Some "https://site.example/admin";
     Project.adminUsername := Some "admin";
     Project.adminPassword := Some "s3cret";
     Project.credentialsNotes := Some "rotate quarterly" |}.

(** A credentials record with only the live link set. *)
Definition liveOnlyCredentials : ProjectCredentials.t :=
  {| ProjectCredentials.id := "k1";
     ProjectCredentials.projectName := "Website Redesign";
     ProjectCredentials.thumbnailUrl := None;
     ProjectCredentials.hostingPlatform := None;
     ProjectCredentials.shortDescription := None;
     ProjectCredentials.liveLink := Some "https://site.example";
     ProjectCredentials.adminPanelLink := None;
     ProjectCredentials.databaseUrl := None;
     ProjectCredentials.serverCredentials := None;
     ProjectCredentials.shortVideoUrl := None;
     ProjectCredentials.fullVideoUrl := None |}.

(** With an empty project list: open the dialog from the empty-state
    button, type a password, reveal it, cancel, and open the dialog from
    the empty-state button again. *)
Definition reopenAfterReveal : list ProjectsPage.Event :=
  [ ProjectsPage.ClickEmptyStateAdd;
    ProjectsPage.TypeAdminPassword "s3cret";
    ProjectsPage.ClickTogglePassword;
    ProjectsPage.ClickCancel;
    ProjectsPage.ClickEmptyStateAdd ].

(* ================================================================== *)
(** ** The rest of the dashboard page *)

Module Payment.
Record t : Type := mk {
  id : string;
  amount : string;
  paymentDate : string;
  paymentMethod : string;
  notes : option string
}.
End Payment.

Module DashboardPage.

(** *** Clipboard *)

Record Toast : Type := mkToast {
  toastTitle : string;
  toastVariant : option string
}.

(** [copiedField], the toasts shown, and the [setTimeout] callbacks not
    yet run. *)
Record State : Type := mkState {
  copiedField : option string;
  toasts : list Toast;
  timers : nat
}.

(** [copyToClipboard(text, field)]; [written] tells whether
    [navigator.clipboard.writeText] resolved or rejected. *)
Definition copyToClipboard (written : bool) (text field : string) (st : State)
  : State :=
  if written then
    {| copiedField := Some field;
       toasts := (toasts st ++ [mkToast "Copied to clipboard" None])%list;
       timers := S (timers st) |}
  else
    {| copiedField := copiedField st;
       toasts := (toasts st ++ [mkToast "Failed to copy" (Some "destructive")])%list;
       timers := timers st |}.

(** A pending [setTimeout(() => setCopiedField(null), 2000)] runs. *)
Definition timeout (st : State) : option State :=
  match timers st with
  | O => None
  | S n => Some {| copiedField := None; toasts := toasts st; timers := n |}
  end.

(** A click on a card's button; [window.open] leaves the page state as it
    is. *)
Definition click (written : bool) (b : Dashboard.Button) (st : State) : State :=
  match Dashboard.onClick b with
  | Dashboard.CopyToClipboard text field => copyToClipboard written text field st
  | Dashboard.WindowOpen _ => st
  end.

(** [copiedField === key], with [copiedField] a string or null. *)
Definition isCopied (st : State) (key : string) : bool :=
  match copiedField st with
  | Some f => f =? key
  | None => false
  end.

(** The icon inside a button.  A copy button compares [copiedField] with
    the key it passes to [copyToClipboard] and shows [Check] or [Copy];
    the open buttons show a fixed icon. *)
Definition buttonIcon (st : State) (b : Dashboard.Button) : string :=
  match Dashboard.onClick b with
  | Dashboard.CopyToClipboard _ field =>
      if isCopied st field then "Check" else "Copy"
  | Dashboard.WindowOpen _ =>
      if Dashboard.testKind b =? "button-short-video" then "Play"
      else if Dashboard.testKind b =? "button-full-video" then "Video"
      else "ExternalLink"
  end.

(** *** The list panels and their empty messages *)

(** "No active projects":
    [!projects || projects.filter(p => p.status === "active").length === 0] *)
Definition showsNoActiveProjects (projects : option (list Project.t)) : bool :=
  match projects with
  | Some ps => (Z.of_nat (length (filter Dashboard.isActive ps)) =? 0)%Z
  | None => true
  end.

(** "No invoices yet": [!invoices || invoices.length === 0] *)
Definition showsNoInvoices (invoices : option (list Invoice.t)) : bool :=
  match invoices with
  | Some l => (Z.of_nat (length l) =? 0)%Z
  | None => true
  end.

(** The rows of "Recent Payments": [payments?.slice(0, 5)]. *)
Definition recentPayments_shown (payments : option (list Payment.t))
  : option (list Payment.t) :=
  JS.optChain payments (JS.slice 0 5).

(** "No payments yet": [!payments || payments.length === 0] *)
Definition showsNoPayments (payments : option (list Payment.t)) : bool :=
  match payments with
  | Some l => (Z.of_nat (length l) =? 0)%Z
  | None => true
  end.

Record InvoiceRow : Type := mkInvoiceRow {
  invoiceTestId : string;
  invoiceNumberText : string;
  dueText : string;
  invoiceAmountText : string;
  invoiceBadgeClass : string;
  invoiceBadgeText : string
}.

Record PaymentRow : Type := mkPaymentRow {
  paymentTestId : string;
  methodText : string;
  paymentDateText : string;
  notesText : list string;
  paymentAmountText : string
}.

Section Rows.
(** [new Date(x).toLocaleDateString()], which depends on the locale. *)
Variable toLocaleDateString : string -> string.
(** [Number(x).toFixed(2)], a built-in on floating-point numbers. *)
Variable toFixed2 : string -> string.

Definition invoiceRow (invoice : Invoice.t) : InvoiceRow :=
  {| invoiceTestId := "invoice-" ++ Invoice.id invoice;
     invoiceNumberText := Invoice.invoiceNumber invoice;
     dueText := "Due: " ++ toLocaleDateString (Invoice.dueDate invoice);
     invoiceAmountText := "$" ++ toFixed2 (Invoice.amount invoice);
     invoiceBadgeClass := Dashboard.getStatusColor (Invoice.status invoice);
     invoiceBadgeText := Invoice.status invoice |}.

Definition invoicesPanel (invoices : option (list Invoice.t)) : list InvoiceRow :=
  match Dashboard.recentInvoices_shown invoices with
  | Some l => map invoiceRow l
  | None => []
  end.

Definition paymentRow (payment : Payment.t) : PaymentRow :=
  {| paymentTestId := "payment-" ++ Payment.id payment;
     methodText := "Payment via " ++ Payment.paymentMethod payment;
     paymentDateText := toLocaleDateString (Payment.paymentDate payment);
     notesText := JS.whenTruthy (Payment.notes payment) (fun s => s);
     paymentAmountText := "$" ++ toFixed2 (Payment.amount payment) |}.

Definition paymentsPanel (payments : option (list Payment.t)) : list PaymentRow :=
  match recentPayments_shown payments with
  | Some l => map paymentRow l
  | None => []
  end.
End Rows.

End DashboardPage.

(* ================================================================== *)
(** ** The rest of the projects page *)

Module ProjectsDialog.

(** An "open link" button next to a URL input of the form:
    [{field.value && <Button onClick={() => window.open(field.value || '', '_blank')} />}] *)
Record OpenButton : Type := mkOpenButton {
  openTestId : string;
  opens : string
}.

Definition openButton (testId : string) (value : option string)
  : list OpenButton :=
  JS.whenTruthy value (fun _ => mkOpenButton testId (JS.orElse value "")).

(** The open buttons of the Videos and Credentials tabs, in page order. *)
Definition formOpenButtons (data : ProjectFormData.t) : list OpenButton :=
  (openButton "button-open-short-video" (ProjectFormData.shortVideoUrl data)
   ++ openButton "button-open-full-video" (ProjectFormData.fullFeatureVideoUrl data)
   ++ openButton "button-open-hosting" (ProjectFormData.hostingLink data)
   ++ openButton "button-open-admin" (ProjectFormData.adminLoginLink data))%list.

(** The project grid: the "No projects yet" card replaces it when there
    is no project, and otherwise it holds one card per project
    ([projects.map]). *)
Definition projectGrid (projects : option (list Project.t))
  : option (list ProjectsPage.ProjectCard) :=
  if ProjectsPage.showsEmptyState projects then None
  else Some (map ProjectsPage.projectCard (JS.nullish projects [])).

End ProjectsDialog.

(* ================================================================== *)
(** ** More notions the properties are stated with *)

(** The value a button acts on: the text it copies or the URL it opens. *)
Definition actionValue (a : Dashboard.ClickAction) : string :=
  match a with
  | Dashboard.CopyToClipboard text _ => text
  | Dashboard.WindowOpen url => url
  end.

(** The four URL fields of a project that get an open button in the
    form, with the button's test id. *)
Definition linkFields (p : Project.t) : list (string * option string) :=
  [ ("button-open-short-video", Project.shortVideoUrl p);
    ("button-open-full-video", Project.fullFeatureVideoUrl p);
    ("button-open-hosting", Project.hostingLink p);
    ("button-open-admin", Project.adminLoginLink p) ].

(** Every field of the form that the page reads without a fallback of its
    own is defined (the deadline is the one field the form may leave
    undefined). *)
Definition allDefined (d : ProjectFormData.t) : Prop :=
  ProjectFormData.description d <> None /\
  ProjectFormData.budget d <> None /\
  ProjectFormData.progress d <> None /\
  ProjectFormData.shortVideoUrl d <> None /\
  ProjectFormData.fullFeatureVideoUrl d <> None /\
  ProjectFormData.hostingLink d <> None /\
  ProjectFormData.adminLoginLink d <> None /\
  ProjectFormData.adminUsername d <> None /\
  ProjectFormData.adminPassword d <> None /\
  ProjectFormData.credentialsNotes d <> None.

(** A [PATCH] request goes to a project of the list. *)
Definition targetsListed (projects : list Project.t) (r : ProjectsPage.Request)
  : Prop :=
  match r with
  | ProjectsPage.POST_projects _ => True
  | ProjectsPage.PATCH_project id _ =>
      exists p, In p projects /\ Project.id p = id
  end.

(** The project being edited is one of the list, and the PATCH requests
    sent so far go to projects of the list. *)
Definition listedInv (projects : list Project.t) (st : ProjectsPage.PageState)
  : Prop :=
  (forall p, ProjectsPage.editingProject st = Some p -> In p projects) /\
  Forall (targetsListed projects) (ProjectsPage.requests st).

(** The form's values and its reset values have every field defined. *)
Definition formDefined (st : ProjectsPage.PageState) : Prop :=
  allDefined (ProjectsPage.values (ProjectsPage.form st)) /\
  allDefined (ProjectsPage.defaultValues (ProjectsPage.form st)).

(** The page state after the password was revealed and the dialog
    closed. *)
Definition revealedThenClosed : ProjectsPage.PageState :=
  {| ProjectsPage.open := false;
     ProjectsPage.editingProject := None;
     ProjectsPage.showPassword := true;
     ProjectsPage.form :=
       ProjectsPage.mkForm ProjectsPage.addNewValues ProjectsPage.addNewValues;
     ProjectsPage.toasts := [];
     ProjectsPage.requests := [];
     ProjectsPage.invalidations := 0 |}.

(** Two credentials records, the second with every field set. *)
Definition fullCredentials : ProjectCredentials.t :=
  {| ProjectCredentials.id := "k2";
     ProjectCredentials.projectName := "Mobile App";
     ProjectCredentials.thumbnailUrl := Some "uploads/app.png";
     ProjectCredentials.hostingPlatform := Some "Fly";
     ProjectCredentials.shortDescription := Some "Companion app";
     ProjectCredentials.liveLink := Some "https://app.example";
     ProjectCredentials.adminPanelLink := Some "https://app.example/admin";
     ProjectCredentials.databaseUrl := Some "postgres://db.example/app";
     ProjectCredentials.serverCredentials := Some "root / hunter2";
     ProjectCredentials.shortVideoUrl := Some "https://video.example/s";
     ProjectCredentials.fullVideoUrl := Some "https://video.example/f" |}.


(* ================================================================== *)
(** ** Theorems: status colouring *)

Ltac known_status :=
  match goal with
  | E : (?s =? ?lit) = true |- _ =>
      apply String.eqb_eq in E; subst s; simpl; tauto
  end.

Lemma dashboard_known_iff (s : string) :
  Dashboard.getStatusColor s <> defaultTag <-> In s knownStatuses.
Proof.
  unfold Dashboard.getStatusColor, defaultTag, knownStatuses,
    projectStatuses, invoiceStatuses.
  split.
  - intros H.
    destruct (s =? "planning") eqn:?; [known_status|].
    destruct (s =? "active") eqn:?; [known_status|].
    destruct (s =? "on-hold") eqn:?; [known_status|].
    destruct (s =? "completed") eqn:?; [known_status|].
    destruct (s =? "draft") eqn:?; [known_status|].
    destruct (s =? "sent") eqn:?; [known_status|].
    destruct (s =? "paid") eqn:?; [known_status|].
    destruct (s =? "overdue") eqn:?; [known_status|].
    now contradiction H.
  - simpl. intros H.
    repeat (destruct H as [<- | H]; [simpl; discriminate|]).
    destruct H.
Qed.

Lemma projects_known_iff (s : string) :
  ProjectsPage.getStatusColor s <> defaultTag <-> In s projectStatuses.
Proof.
  unfold ProjectsPage.getStatusColor, defaultTag, projectStatuses.
  split.
  - intros H.
    destruct (s =? "planning") eqn:?; [known_status|].
    destruct (s =? "active") eqn:?; [known_status|].
    destruct (s =? "on-hold") eqn:?; [known_status|].
    destruct (s =? "completed") eqn:?; [known_status|].
    now contradiction H.
  - simpl. intros H.
    repeat (destruct H as [<- | H]; [simpl; discriminate|]).
    destruct H.
Qed.

Lemma neq_default_dec (t : string) : t = defaultTag \/ t <> defaultTag.
Proof. destruct (String.eqb_spec t defaultTag); auto. Qed.

(** C3 (as stated, refuted): "draft" is a known invoice status, yet the
    projects page's [getStatusColor] gives it the default tag, so the
    claim's "non-default tag for every known status, in both pages"
    fails. *)
Lemma projects_page_draft_is_default :
  In "draft" knownStatuses /\
  ProjectsPage.getStatusColor "draft" = defaultTag.
Proof. split; [simpl; tauto | reflexivity]. Qed.

(** C3 (amended): the dashboard's [getStatusColor] returns a non-default
    tag exactly on the eight known statuses and the default tag on every
    other string; the projects page's [getStatusColor] returns a
    non-default tag exactly on the four project statuses and the default
    tag on every other string, the invoice statuses included.  Both are
    total functions. *)
Theorem statusClass_total (s : string) :
  (In s knownStatuses <-> Dashboard.getStatusColor s <> defaultTag) /\
  (~ In s knownStatuses <-> Dashboard.getStatusColor s = defaultTag) /\
  (In s projectStatuses <-> ProjectsPage.getStatusColor s <> defaultTag) /\
  (~ In s projectStatuses <-> ProjectsPage.getStatusColor s = defaultTag).
Proof.
  pose proof (dashboard_known_iff s) as Hd.
  pose proof (projects_known_iff s) as Hp.
  pose proof (neq_default_dec (Dashboard.getStatusColor s)) as Dd.
  pose proof (neq_default_dec (ProjectsPage.getStatusColor s)) as Dp.
  repeat split; intros; tauto.
Qed.

(** C10: the two [getStatusColor] functions disagree, with non-default
    tags on both sides, at "planning", "active" and "completed"; and the
    projects page's function gives the default tag to each invoice
    status "draft", "sent", "paid", "overdue". *)
Theorem getStatusColor_pages_differ :
  (forall s, In s ["planning"; "active"; "completed"] ->
     Dashboard.getStatusColor s <> ProjectsPage.getStatusColor s /\
     Dashboard.getStatusColor s <> defaultTag /\
     ProjectsPage.getStatusColor s <> defaultTag) /\
  (forall s, In s invoiceStatuses ->
     ProjectsPage.getStatusColor s = defaultTag) /\
  Dashboard.getStatusColor <> ProjectsPage.getStatusColor.
Proof.
  split; [|split].
  - intros s H. simpl in H.
    repeat (destruct H as [<- | H];
            [repeat split; vm_compute; discriminate|]).
    destruct H.
  - intros s H. simpl in H.
    repeat (destruct H as [<- | H]; [reflexivity|]).
    destruct H.
  - intros E.
    assert (H : Dashboard.getStatusColor "active"
                = ProjectsPage.getStatusColor "active") by now rewrite E.
    vm_compute in H. discriminate H.
Qed.

(* ================================================================== *)
(** ** Theorems: the list panels *)

Lemma relativeIndex_zero (len : Z) : (0 <= len)%Z -> JS.relativeIndex len 0 = 0%Z.
Proof.
  intros H. unfold JS.relativeIndex.
  change (0 <? 0)%Z with false. cbv iota. apply Z.min_l. exact H.
Qed.

Lemma slice_from_zero {A : Type} (n : nat) (l : list A) :
  JS.slice 0 (Z.of_nat n) l = firstn n l.
Proof.
  unfold JS.slice.
  rewrite relativeIndex_zero by lia.
  change (Z.to_nat 0) with 0%nat. rewrite skipn_O.
  unfold JS.relativeIndex.
  destruct (Z.of_nat n <? 0)%Z eqn:E; [apply Z.ltb_lt in E; lia|].
  destruct (Nat.le_gt_cases n (length l)) as [Hle | Hgt].
  - replace (Z.to_nat (Z.min (Z.of_nat n) (Z.of_nat (length l)) - 0)) with n by lia.
    reflexivity.
  - replace (Z.to_nat (Z.min (Z.of_nat n) (Z.of_nat (length l)) - 0))
      with (length l) by lia.
    rewrite firstn_all. symmetry. apply firstn_all2. lia.
Qed.


Lemma firstMatching_all {A : Type} (n : nat) (l : list A) :
  firstMatching n (fun _ => true) l = firstn n l.
Proof.
  revert n. induction l as [| x xs IH]; intros [| n']; simpl; try reflexivity.
  now rewrite IH.
Qed.







(* ================================================================== *)
(** ** Theorems: KPI cards *)

(** C6: with no stats data, the six KPI values are 0, 0, 0, "0.00",
    "0.00", 0; whenever the cards are on screen they print "0" for the
    four counts and "0.00" for the two amounts, and the only other
    outcome is the loading skeleton, so rendering never fails. *)
Theorem absent_stats_show_zero {number : Type} (toFixed : number -> Z -> string)
  (statsLoading : bool) :
  map Dashboard.value (Dashboard.kpis toFixed None)
    = [ Dashboard.KNumber 0; Dashboard.KNumber 0; Dashboard.KNumber 0;
        Dashboard.KText "0.00"; Dashboard.KText "0.00"; Dashboard.KNumber 0 ] /\
  Dashboard.kpiCards toFixed statsLoading None
    = if statsLoading then None
      else Some [ ("Total Projects", "0"); ("Active Projects", "0");
                  ("Completed Projects", "0"); ("Total Spent", "0.00");
                  ("Pending Amount", "0.00"); ("Paid Invoices", "0") ].
Proof.
  split; [reflexivity|].
  destruct statsLoading; reflexivity.
Qed.

(* ================================================================== *)
(** ** Theorems: failed mutations *)

(** C7: when a create or an update mutation fails, the error handler
    only adds a toast carrying the server's message: the dialog's [open]
    flag, [editingProject], the form (values and defaults) and every
    other part of the page state are unchanged, so an open dialog stays
    open with the user's input. *)
Theorem mutation_failure_keeps_form (error : ProjectsPage.Error)
  (st : ProjectsPage.PageState) :
  let failed := [ ProjectsPage.exec (ProjectsPage.createMutation_settle
                                       (ProjectsPage.Failed error)) st;
                  ProjectsPage.exec (ProjectsPage.updateMutation_settle
                                       (ProjectsPage.Failed error)) st ] in
  Forall (fun st' =>
    ProjectsPage.open st' = ProjectsPage.open st /\
    ProjectsPage.editingProject st' = ProjectsPage.editingProject st /\
    ProjectsPage.form st' = ProjectsPage.form st /\
    ProjectsPage.showPassword st' = ProjectsPage.showPassword st /\
    ProjectsPage.requests st' = ProjectsPage.requests st /\
    ProjectsPage.invalidations st' = ProjectsPage.invalidations st /\
    ProjectsPage.toasts st'
      = (ProjectsPage.toasts st
         ++ [ProjectsPage.mkToast "Error" (ProjectsPage.message error)
               (Some "destructive")])%list /\
    ProjectsPage.dialogView st' = ProjectsPage.dialogView st) failed.
Proof.
  intros failed. repeat constructor.
Qed.

(* ================================================================== *)
(** ** Theorems: credential cards *)

Lemma whenTruthy_cases {A : Type} (o : option string) (f : string -> A) :
  JS.whenTruthy o f = if JS.truthyOpt o then [f (JS.nullish o "")] else [].
Proof.
  destruct o as [s|]; [|reflexivity].
  unfold JS.whenTruthy, JS.truthyOpt. now destruct (JS.truthy s).
Qed.

Lemma card_groups_by_presence (c : ProjectCredentials.t) (f : CredentialField) :
  showsGroup f (Dashboard.credentialCard c) = present f c /\
  showsPartOfGroup f (Dashboard.credentialCard c) = present f c.
Proof.
  unfold showsGroup, showsPartOfGroup, present, hasButton, cardButtons,
    Dashboard.credentialCard.
  cbn [Dashboard.linkRows Dashboard.videoBar].
  rewrite !whenTruthy_cases.
  destruct f; cbn [fieldOf groupButtons];
    destruct (JS.truthyOpt (ProjectCredentials.liveLink c)),
      (JS.truthyOpt (ProjectCredentials.adminPanelLink c)),
      (JS.truthyOpt (ProjectCredentials.databaseUrl c)),
      (JS.truthyOpt (ProjectCredentials.serverCredentials c)),
      (JS.truthyOpt (ProjectCredentials.shortVideoUrl c)),
      (JS.truthyOpt (ProjectCredentials.fullVideoUrl c));
    split; reflexivity.
Qed.

Lemma present_hasValue (f : CredentialField) (c : ProjectCredentials.t) :
  present f c = true <-> hasValue f c.
Proof.
  unfold present, hasValue, JS.truthyOpt, JS.truthy.
  destruct (fieldOf f c) as [v|].
  - split.
    + intros H. exists v. split; [reflexivity|].
      apply negb_true_iff in H. now apply String.eqb_neq.
    + intros (w & [= <-] & Hw).
      apply negb_true_iff. now apply String.eqb_neq.
  - split; [discriminate|]. intros (w & Hw & _). discriminate Hw.
Qed.

Lemma present_false_iff (f : CredentialField) (c : ProjectCredentials.t) :
  present f c = false <-> ~ hasValue f c.
Proof.
  rewrite <- present_hasValue. destruct (present f c); split; congruence.
Qed.

(** C5: for every credentials record and each of the six credential
    fields, the card holds that field's action group (all of its copy /
    open buttons, and no button of it otherwise) if and only if the
    field is present, that is, set to a string that is not empty; so the
    groups on a card are exactly those of the present fields, whatever
    subset that is, and a field that is missing or the empty string has
    no button on the card.  With no credentials record (no data, or an
    empty list) the credentials section is not rendered at all;
    otherwise it holds one card per record.  A record with only
    [liveLink] present shows exactly one group, the live link's, with
    its copy and its open button and no video bar. *)
Theorem credential_groups_follow_presence :
  (forall c f,
     (showsGroup f (Dashboard.credentialCard c) = true
        <-> exists v, fieldOf f c = Some v /\ v <> "") /\
     (showsPartOfGroup f (Dashboard.credentialCard c) = true
        <-> exists v, fieldOf f c = Some v /\ v <> "")) /\
  (forall c f,
     In f (shownGroups (Dashboard.credentialCard c))
     <-> exists v, fieldOf f c = Some v /\ v <> "") /\
  (forall c f,
     fieldOf f c = None \/ fieldOf f c = Some "" ->
     showsPartOfGroup f (Dashboard.credentialCard c) = false) /\
  Dashboard.credentialsSection None = None /\
  Dashboard.credentialsSection (Some []) = None /\
  (forall c cs,
     Dashboard.credentialsSection (Some (c :: cs))
       = Some (map Dashboard.credentialCard (c :: cs))) /\
  (forall c v,
     ProjectCredentials.liveLink c = Some v -> v <> "" ->
     (forall f, f <> LiveLink -> ~ exists w, fieldOf f c = Some w /\ w <> "") ->
     shownGroups (Dashboard.credentialCard c) = [LiveLink] /\
     cardButtons (Dashboard.credentialCard c)
       = [ Dashboard.mkButton "button-copy-live" (ProjectCredentials.id c)
             (Dashboard.CopyToClipboard v ("live-" ++ ProjectCredentials.id c));
           Dashboard.mkButton "button-open-live" (ProjectCredentials.id c)
             (Dashboard.WindowOpen v) ] /\
     map Dashboard.label (Dashboard.linkRows (Dashboard.credentialCard c))
       = ["Live Website"] /\
     Dashboard.videoBar (Dashboard.credentialCard c) = []) /\
  shownGroups (Dashboard.credentialCard liveOnlyCredentials) = [LiveLink] /\
  map Dashboard.testKind
    (cardButtons (Dashboard.credentialCard liveOnlyCredentials))
    = ["button-copy-live"; "button-open-live"].
Proof.
  assert (G : forall c,
             shownGroups (Dashboard.credentialCard c)
             = filter (fun f => present f c) credentialFields).
  { intros c. unfold shownGroups. apply filter_ext.
    intros f. apply card_groups_by_presence. }
  split; [|split; [|split; [|split; [|split; [|split; [|split]]]]]].
  - intros c f.
    destruct (card_groups_by_presence c f) as [-> ->].
    split; apply present_hasValue.
  - intros c f. rewrite G, filter_In, present_hasValue.
    split; [tauto|]. intros H. split; [|exact H].
    destruct f; cbn; tauto.
  - intros c f H.
    destruct (card_groups_by_presence c f) as [_ ->].
    apply present_false_iff. intros (v & Hv & Hn).
    destruct H as [H | H]; rewrite H in Hv; [discriminate|].
    injection Hv as <-. now apply Hn.
  - reflexivity.
  - reflexivity.
  - intros c cs. unfold Dashboard.credentialsSection.
    cbn [length]. destruct (0 <? Z.of_nat (S (length cs)))%Z eqn:E.
    + reflexivity.
    + apply Z.ltb_ge in E. lia.
  - intros c v Hl Hv Hothers.
    assert (P1 : present LiveLink c = true)
      by (apply present_hasValue; exists v; auto).
    assert (P2 : present AdminPanelLink c = false)
      by (apply present_false_iff, Hothers; discriminate).
    assert (P3 : present DatabaseUrl c = false)
      by (apply present_false_iff, Hothers; discriminate).
    assert (P4 : present ServerCredentials c = false)
      by (apply present_false_iff, Hothers; discriminate).
    assert (P5 : present ShortVideoUrl c = false)
      by (apply present_false_iff, Hothers; discriminate).
    assert (P6 : present FullVideoUrl c = false)
      by (apply present_false_iff, Hothers; discriminate).
    rewrite G. unfold credentialFields. cbn [filter].
    rewrite P1, P2, P3, P4, P5, P6.
    split; [reflexivity|].
    unfold present in P1, P2, P3, P4, P5, P6. cbn [fieldOf] in *.
    unfold cardButtons, Dashboard.credentialCard.
    cbn [Dashboard.linkRows Dashboard.videoBar].
    rewrite !whenTruthy_cases, P1, P2, P3, P4, P5, P6, Hl.
    repeat split.
  - split; reflexivity.
Qed.

(** The scenario of C5 on a concrete record. *)
Lemma credential_groups_live_only :
  shownGroups (Dashboard.credentialCard liveOnlyCredentials) = [LiveLink] /\
  map Dashboard.testKind (cardButtons (Dashboard.credentialCard liveOnlyCredentials))
    = ["button-copy-live"; "button-open-live"].
Proof. split; reflexivity. Qed.

(* ================================================================== *)
(** ** Theorems: progress badge *)

(** With a progress recorded (an integer below 10^21 in magnitude), both
    pages print it followed by "%", and the bar has the same value. *)
Lemma progress_badge_recorded (p : Project.t) (n : Z) :
  (Z.abs n < 10 ^ 21)%Z ->
  Project.progress p = Some n ->
  Dashboard.badgeText (Dashboard.projectRow p) = JS.numberToString n ++ "%" /\
  Dashboard.progressBar (Dashboard.projectRow p) = n /\
  ProjectsPage.progressText (ProjectsPage.projectCard p)
    = JS.numberToString n ++ "%" /\
  ProjectsPage.progressBar (ProjectsPage.projectCard p) = n.
Proof.
  intros _ H. unfold Dashboard.projectRow, ProjectsPage.projectCard. cbn.
  rewrite H. repeat split; reflexivity.
Qed.

(** C4 (the code at the failing input): for a project with no progress
    recorded, the progress bar of both pages falls back to 0, while the
    badge of the dashboard and the progress text of the projects page
    print "%" with no number, not "0%". *)
Theorem progress_badge_missing_prints_no_number :
  Project.progress unstartedProject = None /\
  Dashboard.activeProjectsPanel (Some [unstartedProject])
    = [Dashboard.projectRow unstartedProject] /\
  Dashboard.progressBar (Dashboard.projectRow unstartedProject) = 0%Z /\
  Dashboard.badgeText (Dashboard.projectRow unstartedProject) = "%" /\
  ProjectsPage.progressBar (ProjectsPage.projectCard unstartedProject) = 0%Z /\
  ProjectsPage.progressText (ProjectsPage.projectCard unstartedProject) = "%" /\
  "%" <> "0%".
Proof.
  repeat split; try reflexivity. discriminate.
Qed.

(* ================================================================== *)
(** ** Theorems: the password field *)

(** [handleEdit] and [handleAddNew] open the dialog with the password
    masked, whatever the state before; [handleEdit] loads the stored
    password into the form as it is. *)
Lemma handlers_open_masked (st : ProjectsPage.PageState) (project : Project.t) :
  let edited := ProjectsPage.exec (ProjectsPage.handleEdit project) st in
  let added := ProjectsPage.exec ProjectsPage.handleAddNew st in
  ProjectsPage.open edited = true /\
  ProjectsPage.showPassword edited = false /\
  ProjectsPage.passwordInputType edited = "password" /\
  ProjectFormData.adminPassword (ProjectsPage.values (ProjectsPage.form edited))
    = Some (JS.orElse (Project.adminPassword project) "") /\
  ProjectsPage.open added = true /\
  ProjectsPage.showPassword added = false /\
  ProjectsPage.passwordInputType added = "password".
Proof.
  repeat split; reflexivity.
Qed.

(** Closing the dialog leaves [showPassword] as it was. *)
Lemma cancel_keeps_showPassword (st : ProjectsPage.PageState) :
  ProjectsPage.showPassword (ProjectsPage.exec (ProjectsPage.setOpen false) st)
    = ProjectsPage.showPassword st.
Proof. reflexivity. Qed.

(** C9 (the code at the failing input): on a page with no project, the
    "No projects yet" card's button opens the dialog with a bare
    [setOpen(true)].  After the password was revealed once and the dialog
    cancelled, that button reopens the dialog with [showPassword] still
    true: the admin-password input is of type "text" and shows the value
    typed before. *)
Theorem empty_state_button_reopens_unmasked :
  ProjectsPage.showsEmptyState (Some []) = true /\
  option_map ProjectsPage.dialogView
    (ProjectsPage.run (Some []) reopenAfterReveal ProjectsPage.initialState)
    = Some (Some {| ProjectsPage.dialogTitle := "Add New Project";
                    ProjectsPage.passwordType := "text";
                    ProjectsPage.passwordValue := "s3cret";
                    ProjectsPage.submitLabel := "Create Project" |}) /\
  option_map ProjectsPage.showPassword
    (ProjectsPage.run (Some []) reopenAfterReveal ProjectsPage.initialState)
    = Some true.
Proof.
  repeat split; reflexivity.
Qed.

(* ================================================================== *)
(** ** Theorems: loading a project into the form *)

(** C2 (as stated, refuted): a project with no budget loads into the
    form with budget "0", not with the empty string. *)
Lemma load_absent_budget_is_zero_text :
  Project.budget unbudgetedProject = None /\
  ProjectFormData.budget (ProjectsPage.editValues unbudgetedProject) = Some "0" /\
  ProjectFormData.budget (ProjectsPage.editValues unbudgetedProject) <> Some "".
Proof.
  repeat split; try reflexivity. discriminate.
Qed.

(** C2 (amended): for every project, each optional field other than the
    budget (description, deadline, the two video URLs, hosting link,
    admin login link, admin username, admin password, credentials notes)
    that is absent in the record is the empty string in the form state
    [handleEdit] installs, never undefined; an absent budget is the
    string "0". *)
Theorem load_absent_fields (project : Project.t) (st : ProjectsPage.PageState) :
  let data :=
    ProjectsPage.values
      (ProjectsPage.form (ProjectsPage.exec (ProjectsPage.handleEdit project) st)) in
  data = ProjectsPage.editValues project /\
  (Project.description project = None -> ProjectFormData.description data = Some "") /\
  (Project.budget project = None -> ProjectFormData.budget data = Some "0") /\
  (Project.deadline project = None -> ProjectFormData.deadline data = Some "") /\
  (Project.shortVideoUrl project = None ->
     ProjectFormData.shortVideoUrl data = Some "") /\
  (Project.fullFeatureVideoUrl project = None ->
     ProjectFormData.fullFeatureVideoUrl data = Some "") /\
  (Project.hostingLink project = None -> ProjectFormData.hostingLink data = Some "") /\
  (Project.adminLoginLink project = None ->
     ProjectFormData.adminLoginLink data = Some "") /\
  (Project.adminUsername project = None ->
     ProjectFormData.adminUsername data = Some "") /\
  (Project.adminPassword project = None ->
     ProjectFormData.adminPassword data = Some "") /\
  (Project.credentialsNotes project = None ->
     ProjectFormData.credentialsNotes data = Some "").
Proof.
  intros data. subst data.
  change (ProjectsPage.values
            (ProjectsPage.form
               (ProjectsPage.exec (ProjectsPage.handleEdit project) st)))
    with (ProjectsPage.editValues project).
  unfold ProjectsPage.editValues. cbn.
  repeat split; intros ->; reflexivity.
Qed.

(* ================================================================== *)
(** ** Theorems: dates as text *)

Lemma fourDigit_table :
  forallb (fun n => match fourDigitText (digits 4 (Z.of_nat n)) with
                    | Some v => (v =? Z.of_nat n)%Z
                    | None => false
                    end) (seq 0 (Z.to_nat 10000)) = true.
Proof. vm_compute. reflexivity. Qed.

Lemma twoDigit_table :
  forallb (fun n => match twoDigitText (digits 2 (Z.of_nat n)) with
                    | Some v => (v =? Z.of_nat n)%Z
                    | None => false
                    end) (seq 0 (Z.to_nat 100)) = true.
Proof. vm_compute. reflexivity. Qed.

Lemma fourDigit_digits (y : Z) :
  (0 <= y <= 9999)%Z -> fourDigitText (digits 4 y) = Some y.
Proof.
  intros H.
  pose proof (proj1 (forallb_forall _ _) fourDigit_table (Z.to_nat y)) as T.
  cbv beta in T. rewrite Z2Nat.id in T by lia.
  assert (I : In (Z.to_nat y) (seq 0 (Z.to_nat 10000))) by (apply in_seq; lia).
  specialize (T I).
  destruct (fourDigitText (digits 4 y)) as [v|]; [|discriminate].
  apply Z.eqb_eq in T. now subst.
Qed.

Lemma twoDigit_digits (m : Z) :
  (0 <= m <= 99)%Z -> twoDigitText (digits 2 m) = Some m.
Proof.
  intros H.
  pose proof (proj1 (forallb_forall _ _) twoDigit_table (Z.to_nat m)) as T.
  cbv beta in T. rewrite Z2Nat.id in T by lia.
  assert (I : In (Z.to_nat m) (seq 0 (Z.to_nat 100))) by (apply in_seq; lia).
  specialize (T I).
  destruct (twoDigitText (digits 2 m)) as [v|]; [|discriminate].
  apply Z.eqb_eq in T. now subst.
Qed.

Lemma digitValue_range (c : ascii) (v : Z) :
  digitValue c = Some v -> (0 <= v <= 9)%Z.
Proof.
  unfold digitValue.
  destruct ((48 <=? nat_of_ascii c)%nat && (nat_of_ascii c <=? 57)%nat) eqn:E;
    [|discriminate].
  apply andb_true_iff in E. destruct E as [E1 E2].
  apply Nat.leb_le in E1, E2. intros [= <-]. lia.
Qed.

Lemma digitValue_not_T (c : ascii) (v : Z) :
  digitValue c = Some v -> Ascii.eqb c "T" = false.
Proof.
  intros H. destruct (Ascii.eqb_spec c "T") as [-> | ?]; [|reflexivity].
  vm_compute in H. discriminate H.
Qed.

Lemma calendarDate_parts (a b c rest : string) (y m d : Z) :
  fourDigitText a = Some y -> twoDigitText b = Some m -> twoDigitText c = Some d ->
  match rest with EmptyString => true | String t _ => Ascii.eqb t "T" end = true ->
  calendarDate (a ++ "-" ++ b ++ "-" ++ c ++ rest) = Some (y, m, d).
Proof.
  intros Ha Hb Hc Hr.
  destruct a as [|a1 [|a2 [|a3 [|a4 [|? ?]]]]]; try discriminate Ha.
  destruct b as [|b1 [|b2 [|? ?]]]; try discriminate Hb.
  destruct c as [|c1 [|c2 [|? ?]]]; try discriminate Hc.
  cbn [fourDigitText twoDigitText] in Ha, Hb, Hc.
  cbn [append calendarDate].
  destruct (digitValue a1), (digitValue a2), (digitValue a3), (digitValue a4);
    try discriminate Ha.
  destruct (digitValue b1), (digitValue b2); try discriminate Hb.
  destruct (digitValue c1), (digitValue c2); try discriminate Hc.
  injection Ha as <-. injection Hb as <-. injection Hc as <-.
  rewrite Hr. reflexivity.
Qed.

Lemma calendarDate_range (s : string) (y m d : Z) :
  calendarDate s = Some (y, m, d) ->
  (0 <= y <= 9999 /\ 0 <= m <= 99 /\ 0 <= d <= 99)%Z.
Proof.
  unfold calendarDate.
  destruct s as [|y1 [|y2 [|y3 [|y4 [|h1 [|m1 [|m2 [|h2 [|d1 [|d2 rest]]]]]]]]]];
    try discriminate.
  destruct (digitValue y1) as [a|] eqn:E1; [|discriminate].
  destruct (digitValue y2) as [b|] eqn:E2; [|discriminate].
  destruct (digitValue y3) as [c|] eqn:E3; [|discriminate].
  destruct (digitValue y4) as [e|] eqn:E4; [|discriminate].
  destruct (digitValue m1) as [f|] eqn:E5; [|discriminate].
  destruct (digitValue m2) as [g|] eqn:E6; [|discriminate].
  destruct (digitValue d1) as [h|] eqn:E7; [|discriminate].
  destruct (digitValue d2) as [i|] eqn:E8; [|discriminate].
  match goal with |- (if ?b then _ else _) = _ -> _ => destruct b end;
    [|discriminate].
  intros H.
  assert (Ey : y = (1000 * a + 100 * b + 10 * c + e)%Z) by congruence.
  assert (Em : m = (10 * f + g)%Z) by congruence.
  assert (Ed : d = (10 * h + i)%Z) by congruence.
  apply digitValue_range in E1, E2, E3, E4, E5, E6, E7, E8. lia.
Qed.

Lemma append_empty_r (s : string) : s ++ "" = s.
Proof. induction s as [|c s IH]; cbn; congruence. Qed.

Lemma calendarDate_format (y m d : Z) :
  (0 <= y <= 9999)%Z -> (0 <= m <= 99)%Z -> (0 <= d <= 99)%Z ->
  calendarDate (formatCalendarDate (y, m, d)) = Some (y, m, d).
Proof.
  intros Hy Hm Hd. unfold formatCalendarDate.
  rewrite <- (append_empty_r (digits 2 d)).
  apply calendarDate_parts;
    auto using fourDigit_digits, twoDigit_digits.
Qed.

Lemma normalizeDateInput_same_date (s : string) :
  calendarDate (NormalizeDateInputs.normalizeDateInput s) = calendarDate s.
Proof.
  unfold NormalizeDateInputs.normalizeDateInput.
  destruct (calendarDate s) as [[[y m] d]|] eqn:E; [|exact E].
  destruct (calendarDate_range _ _ _ _ E) as (Hy & Hm & Hd).
  now apply calendarDate_format.
Qed.

Lemma datePart_parts (a b c rest : string) (y m d : Z) :
  fourDigitText a = Some y -> twoDigitText b = Some m -> twoDigitText c = Some d ->
  nth 0 (split "T" (a ++ "-" ++ b ++ "-" ++ c ++ "T" ++ rest)) ""
  = a ++ "-" ++ b ++ "-" ++ c.
Proof.
  intros Ha Hb Hc.
  destruct a as [|a1 [|a2 [|a3 [|a4 [|? ?]]]]]; try discriminate Ha.
  destruct b as [|b1 [|b2 [|? ?]]]; try discriminate Hb.
  destruct c as [|c1 [|c2 [|? ?]]]; try discriminate Hc.
  cbn [fourDigitText twoDigitText] in Ha, Hb, Hc.
  destruct (digitValue a1) eqn:A1, (digitValue a2) eqn:A2,
    (digitValue a3) eqn:A3, (digitValue a4) eqn:A4; try discriminate Ha.
  destruct (digitValue b1) eqn:B1, (digitValue b2) eqn:B2; try discriminate Hb.
  destruct (digitValue c1) eqn:C1, (digitValue c2) eqn:C2; try discriminate Hc.
  apply digitValue_not_T in A1, A2, A3, A4, B1, B2, C1, C2.
  cbn [append split].
  rewrite A1, A2, A3, A4, B1, B2, C1, C2.
  reflexivity.
Qed.

Lemma isoDatePart_plain (d : JSDate) :
  plainDate d ->
  isoDatePart d = formatCalendarDate (utcFullYear d, utcMonth d, utcDate d).
Proof.
  intros (Hy & Hm & Hd).
  unfold isoDatePart, toISOString, formatCalendarDate, isoYear.
  replace ((0 <=? utcFullYear d)%Z && (utcFullYear d <=? 9999)%Z) with true
    by (symmetry; apply andb_true_iff; split; apply Z.leb_le; lia).
  eapply datePart_parts.
  - apply fourDigit_digits. lia.
  - apply twoDigit_digits. lia.
  - apply twoDigit_digits. lia.
Qed.

(* ================================================================== *)
(** ** Theorems: load, then save *)

Lemma truthy_false_empty (s : string) : JS.truthy s = false -> s = "".
Proof.
  unfold JS.truthy. intros H. apply negb_false_iff in H.
  now apply String.eqb_eq.
Qed.

Lemma truthy_true_nonempty (s : string) : JS.truthy s = true -> s <> "".
Proof.
  unfold JS.truthy. intros H. apply negb_true_iff in H.
  now apply String.eqb_neq.
Qed.

Lemma keptOrDefault_orElse (dflt : string) (stored : option string) :
  keptOrDefault dflt stored (Some (JS.orElse stored dflt)).
Proof.
  destruct stored as [v|]; [|reflexivity].
  unfold keptOrDefault, JS.orElse.
  destruct (JS.truthy v) eqn:E.
  - apply truthy_true_nonempty in E. split; [reflexivity | contradiction].
  - apply truthy_false_empty in E. split; [contradiction | reflexivity].
Qed.

Lemma keptOrZero_nullish (stored : option Z) :
  keptOrZero stored (Some (JS.nullish stored 0%Z)).
Proof. destruct stored; reflexivity. Qed.

Lemma orElse_same_iff (stored : option string) :
  Some (JS.orElse stored "") = stored <-> stored <> None.
Proof.
  destruct stored as [v|]; cbn.
  - split; [discriminate|]. intros _.
    destruct (JS.truthy v) eqn:E; [reflexivity|].
    apply truthy_false_empty in E. now subst.
  - split; [discriminate | congruence].
Qed.

Lemma budget_same_iff (stored : option string) :
  Some (JS.orElse stored "0") = stored <-> JS.truthyOpt stored = true.
Proof.
  destruct stored as [v|]; cbn.
  - destruct (JS.truthy v) eqn:E; split; try reflexivity; try discriminate.
    apply truthy_false_empty in E. subst. discriminate.
  - split; discriminate.
Qed.

Lemma progress_same_iff (stored : option Z) :
  Some (JS.nullish stored 0%Z) = stored <-> stored <> None.
Proof.
  destruct stored; cbn; split; congruence.
Qed.

Lemma saved_deadline (R : Project.t) :
  ProjectFormData.deadline (save (load R))
  = Some (NormalizeDateInputs.normalizeDateInput
            (ProjectsPage.deadlineInput (Project.deadline R))).
Proof. reflexivity. Qed.

Lemma deadline_round_trip (R : Project.t) :
  deadlinePlain R ->
  deadlineKept (Project.deadline R) (ProjectFormData.deadline (save (load R))).
Proof.
  intros Hp. rewrite saved_deadline.
  unfold deadlinePlain in Hp. unfold deadlineKept.
  destruct (Project.deadline R) as [[s | d] |]; cbn [ProjectsPage.deadlineInput].
  - cbn [deadlineCalendarDate].
    destruct (calendarDate s) as [cd|] eqn:E.
    + destruct (JS.truthy s) eqn:T.
      * eexists. split; [reflexivity|].
        now rewrite normalizeDateInput_same_date.
      * apply truthy_false_empty in T. subst s. discriminate E.
    + exists s. split; [reflexivity|].
      destruct (JS.truthy s) eqn:T.
      * unfold NormalizeDateInputs.normalizeDateInput. now rewrite E.
      * apply truthy_false_empty in T. now subst s.
  - cbn [deadlineCalendarDate].
    eexists. split; [reflexivity|].
    rewrite normalizeDateInput_same_date, isoDatePart_plain by exact Hp.
    destruct Hp as (Hy & Hm & Hd).
    apply calendarDate_format; lia.
  - reflexivity.
Qed.

Lemma deadline_same_iff (R : Project.t) :
  deadlinePlain R ->
  sameDeadline (Project.deadline R) (ProjectFormData.deadline (save (load R)))
  <-> Project.deadline R <> None.
Proof.
  intros Hp. pose proof (deadline_round_trip R Hp) as K.
  rewrite saved_deadline in *.
  unfold sameDeadline, deadlineKept in *.
  destruct (Project.deadline R) as [dv|].
  - split; [discriminate|]. intros _.
    destruct (deadlineCalendarDate dv) as [cd|].
    + destruct K as (s & E1 & E2). congruence.
    + destruct K as (s & E1 & E2). congruence.
  - split; [contradiction | congruence].
Qed.

(** C1 (as stated, refuted): a project with no budget comes back from
    load and save with budget "0", so the saved patch is not
    semantically equal to the record. *)
Lemma save_load_invents_budget :
  Project.budget unbudgetedProject = None /\
  ProjectFormData.budget (save (load unbudgetedProject)) = Some "0" /\
  ~ SemanticallyEqual unbudgetedProject (save (load unbudgetedProject)).
Proof.
  split; [reflexivity|]. split; [reflexivity|].
  intros (_ & _ & _ & _ & Hb & _). discriminate Hb.
Qed.

(** C1 (amended): for every project record [R] (a [Date] deadline being
    a calendar date with a four-digit year), load followed by save keeps
    clientId, name and status; gives back each optional text field that
    [R] sets to a non-empty string, and the form default when the field
    is absent or empty ("" for the texts, "0" for the budget); gives back
    the recorded progress, or 0 when none is recorded; and gives back a
    deadline that is the same calendar date (the same text when the
    stored text denotes no date, "" when there is none).  So the saved
    patch is semantically equal to [R] exactly when every optional field
    of [R] is set and its budget is not empty. *)
Theorem save_load_round_trip (R : Project.t) (Hp : deadlinePlain R) :
  EqualUpToDefaults R (save (load R)) /\
  (SemanticallyEqual R (save (load R)) <-> fullyPopulated R).
Proof.
  pose proof (deadline_round_trip R Hp) as Kd.
  pose proof (deadline_same_iff R Hp) as Sd.
  split.
  - unfold EqualUpToDefaults.
    repeat (split; [first [reflexivity | apply keptOrDefault_orElse
                          | exact Kd
                          | apply keptOrZero_nullish]|]).
    apply keptOrDefault_orElse.
  - unfold SemanticallyEqual, fullyPopulated.
    change (ProjectFormData.description (save (load R)))
      with (Some (JS.orElse (Project.description R) "")).
    change (ProjectFormData.budget (save (load R)))
      with (Some (JS.orElse (Project.budget R) "0")).
    change (ProjectFormData.progress (save (load R)))
      with (Some (JS.nullish (Project.progress R) 0%Z)).
    change (ProjectFormData.shortVideoUrl (save (load R)))
      with (Some (JS.orElse (Project.shortVideoUrl R) "")).
    change (ProjectFormData.fullFeatureVideoUrl (save (load R)))
      with (Some (JS.orElse (Project.fullFeatureVideoUrl R) "")).
    change (ProjectFormData.hostingLink (save (load R)))
      with (Some (JS.orElse (Project.hostingLink R) "")).
    change (ProjectFormData.adminLoginLink (save (load R)))
      with (Some (JS.orElse (Project.adminLoginLink R) "")).
    change (ProjectFormData.adminUsername (save (load R)))
      with (Some (JS.orElse (Project.adminUsername R) "")).
    change (ProjectFormData.adminPassword (save (load R)))
      with (Some (JS.orElse (Project.adminPassword R) "")).
    change (ProjectFormData.credentialsNotes (save (load R)))
      with (Some (JS.orElse (Project.credentialsNotes R) "")).
    change (ProjectFormData.clientId (save (load R))) with (Project.clientId R).
    change (ProjectFormData.name (save (load R))) with (Project.name R).
    change (ProjectFormData.status (save (load R))) with (Project.status R).
    rewrite !orElse_same_iff, budget_same_iff, progress_same_iff, Sd.
    tauto.
Qed.

(** [save_load_round_trip] at [sampleProject], whose deadline is a
    [Date]. *)
Lemma save_load_round_trip_sample :
  deadlinePlain sampleProject /\
  EqualUpToDefaults sampleProject (save (load sampleProject)) /\
  (SemanticallyEqual sampleProject (save (load sampleProject))
   <-> fullyPopulated sampleProject).
Proof.
  assert (Hp : deadlinePlain sampleProject).
  { unfold deadlinePlain, plainDate. cbn. lia. }
  split; [exact Hp | exact (save_load_round_trip sampleProject Hp)].
Defined.

(* ================================================================== *)
(** ** Further theorems: the dashboard's list panels *)

Lemma firstn_nil_iff {A : Type} (n : nat) (l : list A) :
  firstn (S n) l = [] <-> l = [].
Proof. destruct l; cbn; split; congruence. Qed.

Lemma map_nil_iff {A B : Type} (f : A -> B) (l : list A) :
  map f l = [] <-> l = [].
Proof. destruct l; cbn; split; congruence. Qed.

Lemma length_zero_iff {A : Type} (l : list A) :
  (Z.of_nat (length l) =? 0)%Z = true <-> l = [].
Proof.
  destruct l; cbn [length]; split; try reflexivity; discriminate.
Qed.

Lemma slice5_nil_iff {A : Type} (l : list A) : JS.slice 0 5 l = [] <-> l = [].
Proof.
  change 5%Z with (Z.of_nat 5). rewrite slice_from_zero. apply firstn_nil_iff.
Qed.

Lemma slice5_length {A : Type} (l : list A) : (length (JS.slice 0 5 l) <= 5)%nat.
Proof.
  change 5%Z with (Z.of_nat 5). rewrite slice_from_zero, length_firstn. lia.
Qed.

(** X1: in each of the three list panels of the dashboard the "No ..."
    message is shown exactly when the panel has no row, so a panel is
    never blank and never shows rows together with the message; and no
    panel holds more than five rows. *)
Theorem panel_message_iff_no_rows
  (toLocaleDateString toFixed2 : string -> string)
  (projects : option (list Project.t)) (invoices : option (list Invoice.t))
  (payments : option (list Payment.t)) :
  let rowsP := Dashboard.activeProjectsPanel projects in
  let rowsI := DashboardPage.invoicesPanel toLocaleDateString toFixed2 invoices in
  let rowsQ := DashboardPage.paymentsPanel toLocaleDateString toFixed2 payments in
  (DashboardPage.showsNoActiveProjects projects = true <-> rowsP = []) /\
  (DashboardPage.showsNoInvoices invoices = true <-> rowsI = []) /\
  (DashboardPage.showsNoPayments payments = true <-> rowsQ = []) /\
  (length rowsP <= 5)%nat /\ (length rowsI <= 5)%nat /\ (length rowsQ <= 5)%nat.
Proof.
  cbv zeta.
  unfold Dashboard.activeProjectsPanel, DashboardPage.invoicesPanel,
    DashboardPage.paymentsPanel, Dashboard.activeProjects_shown,
    Dashboard.recentInvoices_shown, DashboardPage.recentPayments_shown,
    DashboardPage.showsNoActiveProjects, DashboardPage.showsNoInvoices,
    DashboardPage.showsNoPayments, JS.optChain.
  destruct projects as [ps|], invoices as [ivs|], payments as [qs|];
    rewrite ?length_map, ?map_nil_iff, ?slice5_nil_iff, ?length_zero_iff;
    repeat split; auto using slice5_length; cbn; lia.
Qed.

(** X2: every row of the "Active Projects" panel is the row of an active
    project of the list, and its badge has the class of the "active"
    status, so the badge colour in that panel never varies. *)
Theorem active_panel_rows_are_active (projects : option (list Project.t)) :
  Forall (fun row =>
            Dashboard.badgeClass row
              = "ml-4 bg-blue-100 text-blue-700 dark:bg-blue-950 dark:text-blue-300" /\
            exists p, In p (JS.nullish projects []) /\
                      Project.status p = "active" /\
                      row = Dashboard.projectRow p)
         (Dashboard.activeProjectsPanel projects).
Proof.
  unfold Dashboard.activeProjectsPanel, Dashboard.activeProjects_shown, JS.optChain.
  destruct projects as [ps|]; [|constructor].
  change 5%Z with (Z.of_nat 5). rewrite slice_from_zero.
  apply Forall_forall. intros row Hrow.
  apply in_map_iff in Hrow. destruct Hrow as (p & <- & Hp).
  assert (Hin : In p (filter Dashboard.isActive ps)).
  { rewrite <- (firstn_skipn 5 (filter Dashboard.isActive ps)).
    apply in_or_app. now left. }
  apply filter_In in Hin. destruct Hin as [Hin Hact].
  apply String.eqb_eq in Hact.
  split.
  - unfold Dashboard.projectRow. cbn [Dashboard.badgeClass].
    rewrite Hact. reflexivity.
  - exists p. auto.
Qed.

(* ================================================================== *)
(** ** Further theorems: the buttons of a credential card *)

Lemma truthyOpt_value (o : option string) :
  JS.truthyOpt o = true -> o = Some (JS.nullish o "") /\ JS.nullish o "" <> "".
Proof.
  destruct o as [v|]; [|discriminate]. cbn. intros H.
  split; [reflexivity | now apply truthy_true_nonempty].
Qed.

(** The buttons of a card, row by row. *)
Lemma cardButtons_rows (c : ProjectCredentials.t) :
  let cid := ProjectCredentials.id c in
  let v f := JS.nullish (fieldOf f c) "" in
  cardButtons (Dashboard.credentialCard c)
  = ((if present LiveLink c
      then [ Dashboard.mkButton "button-copy-live" cid
               (Dashboard.CopyToClipboard (v LiveLink) ("live-" ++ cid));
             Dashboard.mkButton "button-open-live" cid
               (Dashboard.WindowOpen (v LiveLink)) ]
      else [])
     ++ (if present AdminPanelLink c
         then [ Dashboard.mkButton "button-copy-admin" cid
                  (Dashboard.CopyToClipboard (v AdminPanelLink) ("admin-" ++ cid));
                Dashboard.mkButton "button-open-admin" cid
                  (Dashboard.WindowOpen (v AdminPanelLink)) ]
         else [])
     ++ (if present DatabaseUrl c
         then [ Dashboard.mkButton "button-copy-db" cid
                  (Dashboard.CopyToClipboard (v DatabaseUrl) ("db-" ++ cid)) ]
         else [])
     ++ (if present ServerCredentials c
         then [ Dashboard.mkButton "button-copy-server" cid
                  (Dashboard.CopyToClipboard (v ServerCredentials)
                     ("server-" ++ cid)) ]
         else [])
     ++ (if present ShortVideoUrl c
         then [ Dashboard.mkButton "button-short-video" cid
                  (Dashboard.WindowOpen (v ShortVideoUrl)) ]
         else [])
     ++ (if present FullVideoUrl c
         then [ Dashboard.mkButton "button-full-video" cid
                  (Dashboard.WindowOpen (v FullVideoUrl)) ]
         else []))%list.
Proof.
  cbv zeta.
  unfold cardButtons, Dashboard.credentialCard, present.
  cbn [Dashboard.linkRows Dashboard.videoBar fieldOf].
  rewrite !whenTruthy_cases.
  destruct (JS.truthyOpt (ProjectCredentials.liveLink c)),
    (JS.truthyOpt (ProjectCredentials.adminPanelLink c)),
    (JS.truthyOpt (ProjectCredentials.databaseUrl c)),
    (JS.truthyOpt (ProjectCredentials.serverCredentials c)),
    (JS.truthyOpt (ProjectCredentials.shortVideoUrl c)),
    (JS.truthyOpt (ProjectCredentials.fullVideoUrl c));
    reflexivity.
Qed.

Ltac split_cases :=
  repeat match goal with
         | H : In _ (_ ++ _)%list |- _ =>
             apply in_app_or in H; destruct H as [H | H]
         | H : In _ (if present ?f ?c then _ else _) |- _ =>
             let P := fresh "P" in
             destruct (present f c) eqn:P; cbn [In] in H
         | H : In _ (_ :: _) |- _ => cbn [In] in H
         | H : _ \/ _ |- _ => destruct H as [H | H]
         | H : False |- _ => destruct H
         end.

(** X3: every button of a credential card carries the card's own id in
    its test id and acts on the value of the field of its own action
    group: a copy button copies exactly that field's (non-empty) value,
    an open button opens exactly it. *)
Theorem card_buttons_act_on_their_field
  (c : ProjectCredentials.t) (b : Dashboard.Button) :
  In b (cardButtons (Dashboard.credentialCard c)) ->
  Dashboard.testKey b = ProjectCredentials.id c /\
  exists f v,
    In (Dashboard.testKind b) (groupButtons f) /\
    fieldOf f c = Some v /\ v <> "" /\
    actionValue (Dashboard.onClick b) = v.
Proof.
  intros H. rewrite cardButtons_rows in H. cbv zeta in H.
  split_cases; subst b; (split; [reflexivity|]);
    apply truthyOpt_value in P; destruct P as [Pv Pn];
    match type of Pv with
    | fieldOf ?f _ = Some ?v => exists f, v
    end;
    (split; [cbn; tauto|]); (split; [exact Pv|]); (split; [exact Pn|]);
    reflexivity.
Qed.

(** [card_buttons_act_on_their_field] at the copy button of the database
    URL of [fullCredentials]. *)
Lemma card_buttons_act_on_their_field_db :
  Dashboard.testKey
    (Dashboard.mkButton "button-copy-db" "k2"
       (Dashboard.CopyToClipboard "postgres://db.example/app" "db-k2")) = "k2" /\
  exists f v,
    In "button-copy-db" (groupButtons f) /\
    fieldOf f fullCredentials = Some v /\ v <> "" /\
    "postgres://db.example/app" = v.
Proof.
  apply (card_buttons_act_on_their_field fullCredentials
           (Dashboard.mkButton "button-copy-db" "k2"
              (Dashboard.CopyToClipboard "postgres://db.example/app" "db-k2"))).
  cbn. tauto.
Defined.

(** The copy buttons of a card and the keys they pass on. *)
Lemma copy_button_keys (c : ProjectCredentials.t) (b : Dashboard.Button)
  (text key : string) :
  In b (cardButtons (Dashboard.credentialCard c)) ->
  Dashboard.onClick b = Dashboard.CopyToClipboard text key ->
  In (Dashboard.testKind b, key)
     [ ("button-copy-live", "live-" ++ ProjectCredentials.id c);
       ("button-copy-admin", "admin-" ++ ProjectCredentials.id c);
       ("button-copy-db", "db-" ++ ProjectCredentials.id c);
       ("button-copy-server", "server-" ++ ProjectCredentials.id c) ].
Proof.
  intros H E. rewrite cardButtons_rows in H. cbv zeta in H.
  split_cases; subst b; cbn in E; try discriminate E;
    injection E as _ <-; cbn; tauto.
Qed.

Lemma copy_keys_injective (k1 k2 key : string) (id1 id2 : string) :
  In (k1, key)
     [ ("button-copy-live", "live-" ++ id1); ("button-copy-admin", "admin-" ++ id1);
       ("button-copy-db", "db-" ++ id1); ("button-copy-server", "server-" ++ id1) ] ->
  In (k2, key)
     [ ("button-copy-live", "live-" ++ id2); ("button-copy-admin", "admin-" ++ id2);
       ("button-copy-db", "db-" ++ id2); ("button-copy-server", "server-" ++ id2) ] ->
  k1 = k2 /\ id1 = id2.
Proof.
  intros H1 H2. split_cases;
    apply pair_equal_spec in H1, H2;
    destruct H1 as [<- <-], H2 as [<- E]; cbn in E; split; congruence.
Qed.

(** X4: on a page of credential cards, after a successful copy from a
    copy button, a copy button shows the [Check] icon exactly when it is
    of the same kind and on a card with the same credential id as the
    button that was clicked: the keys [live-id], [admin-id], [db-id],
    [server-id] never collide.  A copy that fails changes no icon. *)
Theorem copied_icon_marks_the_clicked_button
  (c1 c2 : ProjectCredentials.t) (b1 b2 : Dashboard.Button)
  (text1 key1 text2 key2 : string) (st : DashboardPage.State) :
  In b1 (cardButtons (Dashboard.credentialCard c1)) ->
  In b2 (cardButtons (Dashboard.credentialCard c2)) ->
  Dashboard.onClick b1 = Dashboard.CopyToClipboard text1 key1 ->
  Dashboard.onClick b2 = Dashboard.CopyToClipboard text2 key2 ->
  (DashboardPage.buttonIcon (DashboardPage.click true b1 st) b2 = "Check"
   <-> Dashboard.testKind b1 = Dashboard.testKind b2 /\
       ProjectCredentials.id c1 = ProjectCredentials.id c2) /\
  DashboardPage.buttonIcon (DashboardPage.click false b1 st) b2
    = DashboardPage.buttonIcon st b2.
Proof.
  intros H1 H2 E1 E2.
  pose proof (copy_button_keys _ _ _ _ H1 E1) as K1.
  pose proof (copy_button_keys _ _ _ _ H2 E2) as K2.
  unfold DashboardPage.buttonIcon, DashboardPage.click, DashboardPage.isCopied,
    DashboardPage.copyToClipboard.
  rewrite E1, E2. cbn [DashboardPage.copiedField].
  split; [|reflexivity].
  destruct (String.eqb_spec key1 key2) as [Ek | Ek].
  - subst key2. split; [intros _ | reflexivity].
    eapply copy_keys_injective; eassumption.
  - split; [discriminate|]. intros [Hk Hid]. exfalso. apply Ek.
    rewrite <- Hid, <- Hk in K2. split_cases; congruence.
Qed.

(** [copied_icon_marks_the_clicked_button] at two copy buttons of
    [fullCredentials]: after copying the database URL the server
    credentials' button keeps its [Copy] icon. *)
Lemma copied_icon_marks_the_clicked_button_sample :
  (DashboardPage.buttonIcon
     (DashboardPage.click true
        (Dashboard.mkButton "button-copy-db" "k2"
           (Dashboard.CopyToClipboard "postgres://db.example/app" "db-k2"))
        (DashboardPage.mkState None [] 0))
     (Dashboard.mkButton "button-copy-server" "k2"
        (Dashboard.CopyToClipboard "root / hunter2" "server-k2")) = "Check"
   <-> "button-copy-db" = "button-copy-server" /\ "k2" = "k2") /\
  DashboardPage.buttonIcon
    (DashboardPage.click false
       (Dashboard.mkButton "button-copy-db" "k2"
          (Dashboard.CopyToClipboard "postgres://db.example/app" "db-k2"))
       (DashboardPage.mkState None [] 0))
    (Dashboard.mkButton "button-copy-server" "k2"
       (Dashboard.CopyToClipboard "root / hunter2" "server-k2"))
  = DashboardPage.buttonIcon (DashboardPage.mkState None [] 0)
      (Dashboard.mkButton "button-copy-server" "k2"
         (Dashboard.CopyToClipboard "root / hunter2" "server-k2")).
Proof.
  apply (copied_icon_marks_the_clicked_button fullCredentials fullCredentials
           (Dashboard.mkButton "button-copy-db" "k2"
              (Dashboard.CopyToClipboard "postgres://db.example/app" "db-k2"))
           (Dashboard.mkButton "button-copy-server" "k2"
              (Dashboard.CopyToClipboard "root / hunter2" "server-k2"))
           "postgres://db.example/app" "db-k2" "root / hunter2" "server-k2"
           (DashboardPage.mkState None [] 0));
    [cbn; tauto | cbn; tauto | reflexivity | reflexivity].
Defined.

(** X17: the check mark's timers are not tied to a button: after two
    successful copies in a row, the first timer to run clears
    [copiedField], so every copy button is back to its [Copy] icon while
    the second copy's timer is still pending. *)
Theorem earlier_timer_clears_later_copy (b : Dashboard.Button)
  (text1 key1 text2 key2 : string) (st : DashboardPage.State) :
  let copied := DashboardPage.copyToClipboard true text2 key2
                  (DashboardPage.copyToClipboard true text1 key1 st) in
  DashboardPage.copiedField copied = Some key2 /\
  exists st',
    DashboardPage.timeout copied = Some st' /\
    DashboardPage.timers st' = S (DashboardPage.timers st) /\
    DashboardPage.copiedField st' = None /\
    DashboardPage.buttonIcon st' b <> "Check".
Proof.
  cbv zeta. split; [reflexivity|].
  eexists. split; [reflexivity|]. split; [reflexivity|]. split; [reflexivity|].
  unfold DashboardPage.buttonIcon, DashboardPage.isCopied.
  cbn [DashboardPage.copiedField].
  destruct (Dashboard.onClick b); [discriminate|].
  destruct (Dashboard.testKind b =? "button-short-video"); [discriminate|].
  destruct (Dashboard.testKind b =? "button-full-video"); discriminate.
Qed.

(* ================================================================== *)
(** ** Further theorems: the KPI grid *)


(* ================================================================== *)
(** ** Further theorems: the deadline text of the edit form *)










(* ================================================================== *)
(** ** Further theorems: opening and submitting the project dialog *)

Lemma showsEmptyState_nth (projects : list Project.t) (i : nat) (p : Project.t) :
  nth_error projects i = Some p ->
  ProjectsPage.showsEmptyState (Some projects) = false.
Proof.
  destruct projects as [|q qs]; [destruct i; discriminate|]. reflexivity.
Qed.

(** X8: on a page whose dialog is closed, a click on the i-th card of
    the grid opens the dialog for exactly the i-th project: titled "Edit
    Project", with "Update Project" as submit label, the form holding
    that project's values and the password input masked; the card
    clicked is the i-th card of the grid, that project's card; an index
    past the list has no card to click. *)
Theorem card_click_edits_that_project
  (projects : list Project.t) (i : nat) (p : Project.t)
  (st : ProjectsPage.PageState) :
  nth_error projects i = Some p ->
  ProjectsPage.open st = false ->
  exists st',
    ProjectsPage.step (Some projects) (ProjectsPage.ClickProjectCard i) st
      = Some st' /\
    ProjectsPage.editingProject st' = Some p /\
    ProjectsPage.values (ProjectsPage.form st') = ProjectsPage.editValues p /\
    ProjectsPage.dialogView st'
      = Some {| ProjectsPage.dialogTitle := "Edit Project";
                ProjectsPage.passwordType := "password";
                ProjectsPage.passwordValue :=
                  JS.orElse (Project.adminPassword p) "";
                ProjectsPage.submitLabel := "Update Project" |} /\
    option_map (fun grid => nth_error grid i)
      (ProjectsDialog.projectGrid (Some projects))
      = Some (Some (ProjectsPage.projectCard p)) /\
    (forall j, nth_error projects j = None ->
       ProjectsPage.step (Some projects) (ProjectsPage.ClickProjectCard j) st
         = None).
Proof.
  intros Hn Ho.
  exists (ProjectsPage.exec (ProjectsPage.handleEdit p) st).
  unfold ProjectsPage.step. rewrite Ho, (showsEmptyState_nth _ _ _ Hn).
  cbn [orb JS.nullish]. rewrite Hn.
  repeat split.
  - unfold ProjectsDialog.projectGrid.
    rewrite (showsEmptyState_nth _ _ _ Hn). cbn [option_map JS.nullish].
    now rewrite nth_error_map, Hn.
  - intros j Hj. now rewrite Hj.
Qed.

(** [card_click_edits_that_project] at the second card of a list of two,
    from the state in which the password was left revealed. *)
Lemma card_click_edits_that_project_sample :
  exists st',
    ProjectsPage.step (Some [unstartedProject; sampleProject])
      (ProjectsPage.ClickProjectCard 1) revealedThenClosed = Some st' /\
    ProjectsPage.editingProject st' = Some sampleProject /\
    ProjectsPage.values (ProjectsPage.form st')
      = ProjectsPage.editValues sampleProject /\
    ProjectsPage.dialogView st'
      = Some {| ProjectsPage.dialogTitle := "Edit Project";
                ProjectsPage.passwordType := "password";
                ProjectsPage.passwordValue :=
                  JS.orElse (Project.adminPassword sampleProject) "";
                ProjectsPage.submitLabel := "Update Project" |} /\
    option_map (fun grid => nth_error grid 1)
      (ProjectsDialog.projectGrid (Some [unstartedProject; sampleProject]))
      = Some (Some (ProjectsPage.projectCard sampleProject)) /\
    (forall j, nth_error [unstartedProject; sampleProject] j = None ->
       ProjectsPage.step (Some [unstartedProject; sampleProject])
         (ProjectsPage.ClickProjectCard j) revealedThenClosed = None).
Proof.
  apply (card_click_edits_that_project [unstartedProject; sampleProject] 1
           sampleProject revealedThenClosed); reflexivity.
Defined.

Lemma openButton_loaded (testId : string) (stored : option string)
  (b : ProjectsDialog.OpenButton) :
  In b (ProjectsDialog.openButton testId (Some (JS.orElse stored "")))
  <-> exists v, stored = Some v /\ v <> "" /\
                b = ProjectsDialog.mkOpenButton testId v.
Proof.
  unfold ProjectsDialog.openButton, JS.whenTruthy.
  destruct stored as [v|]; cbn [JS.orElse].
  - destruct (JS.truthy v) eqn:T.
    + cbn [JS.orElse]. rewrite ?T. cbn [In].
      apply truthy_true_nonempty in T. split.
      * intros [<- | []]. exists v. auto.
      * intros (w & [= <-] & _ & ->). auto.
    + cbn. apply truthy_false_empty in T. split; [tauto|].
      intros (w & [= <-] & Hw & _). contradiction.
  - cbn. split; [tauto|]. intros (w & Hw & _). discriminate Hw.
Qed.

(** X9: in the dialog [handleEdit] opens for a project, an "open link"
    button is shown next to the short-video, full-video, hosting and
    admin-login inputs exactly for the links the project has (set and
    not empty), and it opens the stored URL; the dialog [handleAddNew]
    opens shows none. *)
Theorem edit_form_open_buttons (p : Project.t) (st : ProjectsPage.PageState)
  (b : ProjectsDialog.OpenButton) :
  (In b (ProjectsDialog.formOpenButtons
           (ProjectsPage.values
              (ProjectsPage.form (ProjectsPage.exec (ProjectsPage.handleEdit p) st))))
   <-> exists testId v,
         In (testId, Some v) (linkFields p) /\ v <> "" /\
         b = ProjectsDialog.mkOpenButton testId v) /\
  ProjectsDialog.formOpenButtons
    (ProjectsPage.values
       (ProjectsPage.form (ProjectsPage.exec ProjectsPage.handleAddNew st))) = [].
Proof.
  split; [|reflexivity].
  change (ProjectsPage.values
            (ProjectsPage.form (ProjectsPage.exec (ProjectsPage.handleEdit p) st)))
    with (ProjectsPage.editValues p).
  unfold ProjectsDialog.formOpenButtons, ProjectsPage.editValues, linkFields.
  cbn [ProjectFormData.shortVideoUrl ProjectFormData.fullFeatureVideoUrl
       ProjectFormData.hostingLink ProjectFormData.adminLoginLink].
  rewrite !in_app_iff, !openButton_loaded. cbn [In].
  split.
  - intros [H | [H | [H | H]]]; destruct H as (v & E & N & ->);
      eexists _, v; rewrite E; (split; [|split; [exact N | reflexivity]]); tauto.
  - intros (t & v & H & N & ->).
    destruct H as [H | [H | [H | [H | []]]]];
      apply pair_equal_spec in H; destruct H as [<- E];
      [left | right; left | right; right; left | right; right; right];
      exists v; auto.
Qed.



(* ================================================================== *)
(** ** Further theorems: what every sequence of events preserves *)

Lemma run_preserves (projects : option (list Project.t))
  (I : ProjectsPage.PageState -> Prop) :
  (forall e st st', I st -> ProjectsPage.step projects e st = Some st' -> I st') ->
  forall es st st', I st -> ProjectsPage.run projects es st = Some st' -> I st'.
Proof.
  intros Hstep es. induction es as [|e es IH]; intros st st' Hi Hr.
  - cbn in Hr. now injection Hr as <-.
  - cbn in Hr.
    destruct (ProjectsPage.step projects e st) as [st1|] eqn:E; [|discriminate].
    eapply IH; [|exact Hr]. eapply Hstep; eassumption.
Qed.

Ltac step_cases e st :=
  unfold ProjectsPage.step;
  destruct e as [ | i | | | | | s | j s | | o | o ];
  destruct (ProjectsPage.open st) eqn:?; cbn [orb negb];
  try discriminate.

Lemma step_listed (projects : option (list Project.t)) (e : ProjectsPage.Event)
  (st st' : ProjectsPage.PageState) :
  listedInv (JS.nullish projects []) st ->
  ProjectsPage.step projects e st = Some st' ->
  listedInv (JS.nullish projects []) st'.
Proof.
  intros [He Hr]. step_cases e st.
  - intros [= <-]. split; [discriminate | exact Hr].
  - destruct (ProjectsPage.showsEmptyState projects); [discriminate|].
    destruct (nth_error (JS.nullish projects []) i) as [p|] eqn:N; [|discriminate].
    intros [= <-]. split; [|exact Hr].
    intros q [= <-]. eapply nth_error_In. exact N.
  - destruct (ProjectsPage.showsEmptyState projects); [|discriminate].
    intros [= <-]. split; assumption.
  - intros [= <-]. split; assumption.
  - intros [= <-]. split; assumption.
  - intros [= <-]. split; assumption.
  - intros [= <-]. split; assumption.
  - intros [= <-]. split; assumption.
  - intros [= <-].
    unfold ProjectsPage.exec, ProjectsPage.onSubmit, ProjectsPage.bind,
      ProjectsPage.getState.
    destruct (ProjectsPage.editingProject st) as [p|] eqn:Ep; cbn;
      (split; [rewrite ?Ep; exact He|]);
      apply Forall_app; (split; [exact Hr|]); repeat constructor.
    exists p. split; [now apply He | reflexivity].
  - intros [= <-]. destruct o; split; try exact Hr; try exact He; discriminate.
  - intros [= <-]. destruct o; split; try exact Hr; try exact He; discriminate.
  - intros [= <-]. destruct o; split; try exact Hr; try exact He; discriminate.
  - intros [= <-]. destruct o; split; try exact Hr; try exact He; discriminate.
Qed.

(** X11: starting from the initial page state, after any sequence of
    events on a page showing a given project list, the project being
    edited (if any) is one of the list, and every PATCH request that
    was sent goes to the id of a project of the list. *)
Theorem requests_target_listed_projects
  (projects : option (list Project.t)) (es : list ProjectsPage.Event)
  (st : ProjectsPage.PageState) :
  ProjectsPage.run projects es ProjectsPage.initialState = Some st ->
  (forall p, ProjectsPage.editingProject st = Some p ->
             In p (JS.nullish projects [])) /\
  Forall (targetsListed (JS.nullish projects [])) (ProjectsPage.requests st).
Proof.
  intros H.
  apply (run_preserves projects (listedInv (JS.nullish projects []))
           (step_listed projects) es ProjectsPage.initialState st); [|exact H].
  split; [discriminate | constructor].
Qed.

(** [requests_target_listed_projects] after editing and submitting the
    second project of a list of two. *)
Lemma requests_target_listed_projects_sample :
  (forall p,
     ProjectsPage.editingProject
       (ProjectsPage.exec
          (ProjectsPage.onSubmit (ProjectsPage.editValues sampleProject))
          (ProjectsPage.exec (ProjectsPage.handleEdit sampleProject)
             ProjectsPage.initialState)) = Some p ->
     In p [unstartedProject; sampleProject]) /\
  Forall (targetsListed [unstartedProject; sampleProject])
    (ProjectsPage.requests
       (ProjectsPage.exec
          (ProjectsPage.onSubmit (ProjectsPage.editValues sampleProject))
          (ProjectsPage.exec (ProjectsPage.handleEdit sampleProject)
             ProjectsPage.initialState))).
Proof.
  apply (requests_target_listed_projects
           (Some [unstartedProject; sampleProject])
           [ProjectsPage.ClickProjectCard 1; ProjectsPage.SubmitForm]).
  reflexivity.
Defined.

Lemma allDefined_addNew : allDefined ProjectsPage.addNewValues.
Proof. repeat split; discriminate. Qed.

Lemma allDefined_edit (p : Project.t) : allDefined (ProjectsPage.editValues p).
Proof. repeat split; discriminate. Qed.

Lemma allDefined_password (s : string) (d : ProjectFormData.t) :
  allDefined d -> allDefined (ProjectFormData.set_adminPassword (Some s) d).
Proof.
  intros (H1 & H2 & H3 & H4 & H5 & H6 & H7 & H8 & H9 & H10).
  repeat split; try assumption. discriminate.
Qed.

Lemma allDefined_input (i : ProjectsPage.FormInput) (s : string)
  (d : ProjectFormData.t) :
  allDefined d -> allDefined (ProjectsPage.setInput i s d).
Proof.
  intros (H1 & H2 & H3 & H4 & H5 & H6 & H7 & H8 & H9 & H10).
  destruct i; repeat split; cbn; first [assumption | discriminate].
Qed.

Lemma step_defined (projects : option (list Project.t)) (e : ProjectsPage.Event)
  (st st' : ProjectsPage.PageState) :
  formDefined st -> ProjectsPage.step projects e st = Some st' -> formDefined st'.
Proof.
  intros [Hv Hd]. step_cases e st.
  - intros [= <-]. split; apply allDefined_addNew.
  - destruct (ProjectsPage.showsEmptyState projects); [discriminate|].
    destruct (nth_error (JS.nullish projects []) i) as [p|]; [|discriminate].
    intros [= <-]. split; apply allDefined_edit.
  - destruct (ProjectsPage.showsEmptyState projects); [|discriminate].
    intros [= <-]. split; assumption.
  - intros [= <-]. split; assumption.
  - intros [= <-]. split; assumption.
  - intros [= <-]. split; assumption.
  - intros [= <-]. split; [now apply allDefined_password | assumption].
  - intros [= <-]. split; [now apply allDefined_input | assumption].
  - intros [= <-].
    unfold ProjectsPage.exec, ProjectsPage.onSubmit, ProjectsPage.bind,
      ProjectsPage.getState.
    destruct (ProjectsPage.editingProject st); split; assumption.
  - intros [= <-]. destruct o; split; assumption.
  - intros [= <-]. destruct o; split; assumption.
  - intros [= <-]. destruct o; split; assumption.
  - intros [= <-]. destruct o; split; assumption.
Qed.

(** X12: starting from the initial page state, after any sequence of
    events (opening and closing the dialog, typing in or clearing any
    input, choosing in a select, submitting, a mutation succeeding or
    failing), every field of the form other than the deadline is
    defined, in the current values and in the values a reset goes back
    to: no handler and no edit ever leaves description, budget,
    progress, a video URL or a credential field undefined. *)
Theorem form_fields_stay_defined
  (projects : option (list Project.t)) (es : list ProjectsPage.Event)
  (st : ProjectsPage.PageState) :
  ProjectsPage.run projects es ProjectsPage.initialState = Some st ->
  allDefined (ProjectsPage.values (ProjectsPage.form st)) /\
  allDefined (ProjectsPage.defaultValues (ProjectsPage.form st)).
Proof.
  intros H.
  apply (run_preserves projects formDefined (step_defined projects) es
           ProjectsPage.initialState st); [|exact H].
  split; repeat split; discriminate.
Qed.

(** [form_fields_stay_defined] after a project with no optional field
    set was opened, its budget cleared, a hosting link and a password
    typed. *)
Lemma form_fields_stay_defined_sample :
  allDefined
    (ProjectsPage.values
       (ProjectsPage.form
          (ProjectsPage.exec (ProjectsPage.changeAdminPassword "pw")
             (ProjectsPage.exec
                (ProjectsPage.changeField ProjectsPage.HostingLinkInput
                   "https://app.example")
                (ProjectsPage.exec
                   (ProjectsPage.changeField ProjectsPage.BudgetInput "")
                   (ProjectsPage.exec (ProjectsPage.handleEdit unstartedProject)
                      ProjectsPage.initialState)))))) /\
  allDefined
    (ProjectsPage.defaultValues
       (ProjectsPage.form
          (ProjectsPage.exec (ProjectsPage.changeAdminPassword "pw")
             (ProjectsPage.exec
                (ProjectsPage.changeField ProjectsPage.HostingLinkInput
                   "https://app.example")
                (ProjectsPage.exec
                   (ProjectsPage.changeField ProjectsPage.BudgetInput "")
                   (ProjectsPage.exec (ProjectsPage.handleEdit unstartedProject)
                      ProjectsPage.initialState)))))).
Proof.
  apply (form_fields_stay_defined (Some [unstartedProject])
           [ ProjectsPage.ClickProjectCard 0;
             ProjectsPage.TypeField ProjectsPage.BudgetInput "";
             ProjectsPage.TypeField ProjectsPage.HostingLinkInput
               "https://app.example";
             ProjectsPage.TypeAdminPassword "pw" ]).
  reflexivity.
Defined.

(** X13: on a page that shows at least one project, whichever event
    takes the dialog from closed to open, the dialog opens with the
    password masked: the reopening with a revealed password needs the
    empty-state button, which such a page does not show. *)
Theorem dialog_opens_masked_when_projects_exist
  (projects : option (list Project.t)) (e : ProjectsPage.Event)
  (st st' : ProjectsPage.PageState) :
  ProjectsPage.showsEmptyState projects = false ->
  ProjectsPage.step projects e st = Some st' ->
  ProjectsPage.open st = false ->
  ProjectsPage.open st' = true ->
  ProjectsPage.showPassword st' = false /\
  option_map ProjectsPage.passwordType (ProjectsPage.dialogView st')
    = Some "password".
Proof.
  intros Hs Hstep Ho Ho'.
  assert (M : ProjectsPage.showPassword st' = false).
  { revert Hstep. unfold ProjectsPage.step. rewrite Ho, Hs. cbn [orb negb].
    destruct e as [ | i | | | | | s | j s | | o | o ]; try discriminate.
    - now intros [= <-].
    - destruct (nth_error (JS.nullish projects []) i); [|discriminate].
      now intros [= <-].
    - intros [= <-]. destruct o; cbn in Ho'; congruence.
    - intros [= <-]. destruct o; cbn in Ho'; congruence. }
  split; [exact M|].
  unfold ProjectsPage.dialogView, ProjectsPage.passwordInputType.
  now rewrite Ho', M.
Qed.

(** [dialog_opens_masked_when_projects_exist] at a card click in the
    state where the password was left revealed. *)
Lemma dialog_opens_masked_when_projects_exist_sample :
  ProjectsPage.showPassword
    (ProjectsPage.exec (ProjectsPage.handleEdit sampleProject) revealedThenClosed)
    = false /\
  option_map ProjectsPage.passwordType
    (ProjectsPage.dialogView
       (ProjectsPage.exec (ProjectsPage.handleEdit sampleProject)
          revealedThenClosed))
    = Some "password".
Proof.
  apply (dialog_opens_masked_when_projects_exist (Some [sampleProject])
           (ProjectsPage.ClickProjectCard 0) revealedThenClosed);
    reflexivity.
Defined.

(** X14: the eye button is a toggle that touches nothing but the mask
    (two clicks give back the page state, one click keeps the form, the
    dialog and the project being edited), and typing in the password
    field never changes the mask. *)
Theorem password_toggle_only_flips_mask (st : ProjectsPage.PageState)
  (s : string) :
  let once := ProjectsPage.exec ProjectsPage.togglePassword st in
  let typed := ProjectsPage.exec (ProjectsPage.changeAdminPassword s) st in
  ProjectsPage.exec ProjectsPage.togglePassword once = st /\
  ProjectsPage.showPassword once = negb (ProjectsPage.showPassword st) /\
  ProjectsPage.form once = ProjectsPage.form st /\
  ProjectsPage.open once = ProjectsPage.open st /\
  ProjectsPage.editingProject once = ProjectsPage.editingProject st /\
  ProjectsPage.passwordInputType once <> ProjectsPage.passwordInputType st /\
  ProjectsPage.showPassword typed = ProjectsPage.showPassword st /\
  ProjectsPage.passwordInputType typed = ProjectsPage.passwordInputType st.
Proof.
  destruct st as [o ep sp f ts rs n]. cbv zeta.
  unfold ProjectsPage.passwordInputType. cbn.
  rewrite negb_involutive.
  repeat split; destruct sp; discriminate.
Qed.

(** X15: from a closed dialog, clicking the i-th card, submitting the
    form as loaded and a successful update leave the dialog closed with
    no project being edited, having sent exactly one request, a PATCH to
    that project's id carrying the normalized loaded values, having
    invalidated the project query once and shown the success toast. *)
Theorem edit_cycle_sends_one_patch
  (projects : list Project.t) (i : nat) (p : Project.t)
  (st : ProjectsPage.PageState) :
  nth_error projects i = Some p ->
  ProjectsPage.open st = false ->
  exists st',
    ProjectsPage.run (Some projects)
      [ ProjectsPage.ClickProjectCard i; ProjectsPage.SubmitForm;
        ProjectsPage.UpdateSettled ProjectsPage.Succeeded ] st = Some st' /\
    ProjectsPage.dialogView st' = None /\
    ProjectsPage.editingProject st' = None /\
    ProjectsPage.requests st'
      = (ProjectsPage.requests st
         ++ [ProjectsPage.PATCH_project (Project.id p)
               (NormalizeDateInputs.normalizeProjectData
                  (ProjectsPage.editValues p))])%list /\
    ProjectsPage.invalidations st' = S (ProjectsPage.invalidations st) /\
    ProjectsPage.toasts st'
      = (ProjectsPage.toasts st
         ++ [ProjectsPage.mkToast "Success" "Project updated successfully" None])%list.
Proof.
  intros Hn Ho.
  eexists. split.
  - cbn [ProjectsPage.run]. unfold ProjectsPage.step at 1.
    rewrite Ho, (showsEmptyState_nth _ _ _ Hn). cbn [orb JS.nullish].
    rewrite Hn. cbn. reflexivity.
  - repeat split.
Qed.

(** [edit_cycle_sends_one_patch] at the second card of a list of two. *)
Lemma edit_cycle_sends_one_patch_sample :
  exists st',
    ProjectsPage.run (Some [unstartedProject; sampleProject])
      [ ProjectsPage.ClickProjectCard 1; ProjectsPage.SubmitForm;
        ProjectsPage.UpdateSettled ProjectsPage.Succeeded ]
      ProjectsPage.initialState = Some st' /\
    ProjectsPage.dialogView st' = None /\
    ProjectsPage.editingProject st' = None /\
    ProjectsPage.requests st'
      = (ProjectsPage.requests ProjectsPage.initialState
         ++ [ProjectsPage.PATCH_project (Project.id sampleProject)
               (NormalizeDateInputs.normalizeProjectData
                  (ProjectsPage.editValues sampleProject))])%list /\
    ProjectsPage.invalidations st'
      = S (ProjectsPage.invalidations ProjectsPage.initialState) /\
    ProjectsPage.toasts st'
      = (ProjectsPage.toasts ProjectsPage.initialState
         ++ [ProjectsPage.mkToast "Success" "Project updated successfully" None])%list.
Proof.
  apply (edit_cycle_sends_one_patch [unstartedProject; sampleProject] 1
           sampleProject ProjectsPage.initialState); reflexivity.
Defined.

(** X16: whatever the page state (a project being edited, values typed,
    the password revealed), the header's "Add Project" button opens the
    dialog on the form's initial values: the form is the one of the
    initial page state, no project is being edited, the password input
    is masked and empty, and the title and submit label are those of a
    new project. *)
Theorem add_new_starts_clean (st : ProjectsPage.PageState) :
  let st' := ProjectsPage.exec ProjectsPage.handleAddNew st in
  ProjectsPage.form st' = ProjectsPage.form ProjectsPage.initialState /\
  ProjectsPage.editingProject st' = None /\
  ProjectsPage.dialogView st'
    = Some {| ProjectsPage.dialogTitle := "Add New Project";
              ProjectsPage.passwordType := "password";
              ProjectsPage.passwordValue := "";
              ProjectsPage.submitLabel := "Create Project" |} /\
  ProjectsPage.requests st' = ProjectsPage.requests st /\
  ProjectsPage.toasts st' = ProjectsPage.toasts st.
Proof.
  repeat split.
Qed.
